(** * Task-augmented tool invocation: a shallow embedding of mcp-go's
      task tool adaptors, typed handler binder and reference espresso worker.

    Sources embedded here:
    - [server/task_tool.go]   validators, forward adaptor, middleware adaptor,
                              hook adaptors                 (Module [server])
    - package [mcp], typed tool handlers                    (Module [typed])
    - the espresso example ([espressoHandler], [makeEspresso])
                                                            (Module [espresso])

    Go values are modelled as follows.  A pointer [*T] is an [option T]
    ([None] is the nil pointer).  A value of an interface type is a [dyn]: the
    dynamic type together with the value it carries.  A function returning
    [(T, error)] returns a pair whose second component is an [option error]
    ([None] is the nil error).  Calls of caller-supplied functions (handlers,
    hooks) and of the task manager are effects: they are threaded through a
    state monad and every such call is appended to a trace, so that
    "is invoked once" and "is never invoked" are statements about the trace. *)

From stdpp Require Import gmap strings list pretty.
From Stdlib Require Import ZArith Lia Ascii.

#[local] Set Warnings "-register-all".
#[local] Open Scope string_scope.
#[local] Open Scope list_scope.

(** ** Package [context] *)
Module context.
(** Contexts are opaque to the code under study: it only passes them on.
    A context is identified by a label. *)
Definition Context : Type := string.
End context.

(** ** Package [mcp]: the data the adaptors work on *)
Module mcp.

(** Go's [any]: the dynamic values that occur in elicitation schemas and
    responses.  [any_other ty] stands for a value of any further dynamic
    type, of which only the type name (as printed by [%T]) is observable. *)
Inductive any : Type :=
| any_nil
| any_string (s : string)
| any_int (n : Z)
| any_bool (b : bool)
| any_strings (l : list string)
| any_map (m : gmap string any)
| any_other (ty : string).

(** What [fmt]'s [%T] prints for a value of type [any]. *)
Definition typeName (v : any) : string :=
  match v with
  | any_nil => "<nil>"
  | any_string _ => "string"
  | any_int _ => "int"
  | any_bool _ => "bool"
  | any_strings _ => "[]string"
  | any_map _ => "map[string]interface {}"
  | any_other ty => ty
  end.

(** Go error values: [errors.New]/[fmt.Errorf] without wrapping give an
    [errorString], [errors.Join] gives a [joinError]. *)
Inductive error : Type :=
| errorString (s : string)
| joinError (errs : list error).

Definition newline : string := String "010"%char "".

(** The [Error()] method. A [joinError] prints its members one per line. *)
Fixpoint Error (e : error) : string :=
  match e with
  | errorString s => s
  | joinError errs =>
      (fix go (l : list error) : string :=
         match l with
         | [] => ""
         | [x] => Error x
         | x :: rest => Error x +:+ newline +:+ go rest
         end) errs
  end.

(** [errors.Join]: nil members are dropped; the result is nil when nothing
    is left. *)
Definition errors_Join (errs : list (option error)) : option error :=
  match omap id errs with
  | [] => None
  | es => Some (joinError es)
  end.

(** Content blocks. Only text blocks are built by the code under study. *)
Inductive Content : Type :=
| TextContent (text : string)
| OtherContent (kind : string).

Definition NewTextContent (text : string) : Content := TextContent text.

(** The immediate result of a tool call. *)
Record CallToolResult : Type := mkCallToolResult {
  CallToolResult_Content : list Content;
  StructuredContent : any;
  IsError : bool
}.

(** The zero value [mcp.CallToolResult{}]. *)
Definition emptyCallToolResult : CallToolResult :=
  {| CallToolResult_Content := []; StructuredContent := any_nil; IsError := false |}.

Inductive TaskStatus : Type :=
| TaskStatusWorking
| TaskStatusInputRequired
| TaskStatusCompleted
| TaskStatusFailed
| TaskStatusCancelled.

(** The task handle: the task identifier and its status at creation. *)
Record CreateTaskResult : Type := mkCreateTaskResult {
  TaskId : string;
  Status : TaskStatus
}.

(** A value of one of the two result interfaces, [AnyToolResult] and
    [TaskPayloadResult]: its dynamic type and the value held. The type
    switches of the code tell apart a struct held by value from a pointer
    to it, so both are kept. *)
Inductive dyn : Type :=
| dyn_nil                                             (* the nil interface *)
| dyn_CallToolResult (r : CallToolResult)             (* mcp.CallToolResult *)
| dyn_CallToolResultPtr (p : option CallToolResult)   (* *mcp.CallToolResult *)
| dyn_CreateTaskResult (t : CreateTaskResult)         (* mcp.CreateTaskResult *)
| dyn_CreateTaskResultPtr (p : option CreateTaskResult) (* *mcp.CreateTaskResult *)
| dyn_other (ty : string).                            (* any further type *)

Definition AnyToolResult : Type := dyn.
Definition TaskPayloadResult : Type := dyn.

Record CallToolRequest : Type := mkCallToolRequest {
  Name : string;
  Arguments : any
}.

(** Modelled from the spec: [NewToolResultError] is declared outside the
    files under study; it builds "an ImmediateResult flagged as an error"
    whose single text block carries the given description. *)
Definition NewToolResultError (text : string) : CallToolResult :=
  {| CallToolResult_Content := [TextContent text]; StructuredContent := any_nil; IsError := true |}.

(** Modelled from the spec: [CreateTaskResult.ToAnyResult] is declared outside
    the files under study; it presents the handle as the TaskHandle case of
    the result union, i.e. a pointer to an interface holding the handle by
    value (the shape the type switches of [server/task_tool.go] accept). *)
Definition ToAnyResult (t : CreateTaskResult) : option AnyToolResult :=
  Some (dyn_CreateTaskResult t).

(** Elicitation. *)
Inductive ElicitationResponseAction : Type :=
| ElicitationResponseActionAccept
| ElicitationResponseActionDecline
| ElicitationResponseActionCancel.

Record ElicitationParams : Type := mkElicitationParams {
  Message : string;
  RequestedSchema : any
}.

Record ElicitationRequest : Type := mkElicitationRequest {
  Params : ElicitationParams
}.

Record ElicitationResult : Type := mkElicitationResult {
  Action : ElicitationResponseAction;
  ElicitationResult_Content : any
}.

(** Options of [CreateTask]. *)
Inductive TaskOption : Type :=
| WithTaskTTL (ttl : Z).

End mcp.

(** ** Execution model: a state monad over the world the adaptors run in *)
Module exec.
Import context mcp.

(** The trace records every call of a caller-supplied function. *)
Inductive Event : Type :=
| EvToolHandler (ctx : Context) (request : CallToolRequest)
    (out : option CallToolResult * option error)
| EvTaskToolHandler (ctx : Context) (request : CallToolRequest)
    (out : option AnyToolResult * option error)
| EvBeforeCallTool (ctx : Context) (id : any) (message : option CallToolRequest)
| EvAfterCallTool (ctx : Context) (id : any) (message : option CallToolRequest)
    (result : option CallToolResult).

(** The world: the state [U] owned by the caller-supplied functions, the
    trace, and the heap of side-channel cells.  A cell holds a
    [*mcp.CreateTaskResult]; a location is an index into the heap, and
    closures that captured the same location share the cell. *)
Record World (U : Type) : Type := mkWorld {
  user : U;
  trace : list Event;
  heap : list (option CreateTaskResult)
}.
Arguments mkWorld {U} _ _ _.
Arguments user {U} _.
Arguments trace {U} _.
Arguments heap {U} _.

Definition M (U A : Type) : Type := World U -> A * World U.

Definition ret {U A} (a : A) : M U A := fun w => (a, w).

Definition bind {U A B} (m : M U A) (k : A -> M U B) : M U B :=
  fun w => let '(a, w') := m w in k a w'.

Declare Scope exec_scope.
Delimit Scope exec_scope with exec.
Notation "'let*' x ':=' c 'in' k" := (bind c (fun x => k))
  (at level 10, x pattern, c at level 100, k at level 200, only parsing) : exec_scope.
Notation "c >> k" := (bind c (fun _ => k))
  (at level 100, k at level 200, right associativity, only parsing) : exec_scope.

(** [new] of a [*mcp.CreateTaskResult]: a fresh cell holding the nil pointer. *)
Definition new_cell {U} : M U nat :=
  fun w => (length (heap w), mkWorld (user w) (trace w) (heap w ++ [None])).

(** [*l]. Locations come from [new_cell] only, so the cell exists; reading
    an unallocated location is given the nil pointer. *)
Definition load {U} (l : nat) : M U (option CreateTaskResult) :=
  fun w => (default None (heap w !! l), w).

(** [*l = v]. *)
Definition store {U} (l : nat) (v : option CreateTaskResult) : M U unit :=
  fun w => (tt, mkWorld (user w) (trace w) (<[l := v]> (heap w))).

Definition modify {U} (f : U -> U) : M U unit :=
  fun w => (tt, mkWorld (f (user w)) (trace w) (heap w)).

Definition emit {U} (e : Event) : M U unit :=
  fun w => (tt, mkWorld (user w) (trace w ++ [e]) (heap w)).

(** Handler signatures of package [server]. *)
Definition ToolHandlerFunc (U : Type) : Type :=
  Context -> CallToolRequest -> M U (option CallToolResult * option error).

Definition TaskToolHandlerFunc (U : Type) : Type :=
  Context -> CallToolRequest -> M U (option AnyToolResult * option error).

Definition ToolHandlerMiddleware (U : Type) : Type :=
  ToolHandlerFunc U -> ToolHandlerFunc U.

(** Applying a task-tool middleware may allocate, hence the monad. *)
Definition TaskToolHandlerMiddleware (U : Type) : Type :=
  TaskToolHandlerFunc U -> M U (TaskToolHandlerFunc U).

(** Caller-supplied handlers act on their own state [U]; running one is
    recorded in the trace together with what it returned. *)
Definition UserToolHandler (U : Type) : Type :=
  Context -> CallToolRequest -> U -> (option CallToolResult * option error) * U.

Definition UserTaskToolHandler (U : Type) : Type :=
  Context -> CallToolRequest -> U -> (option AnyToolResult * option error) * U.

Definition toolHandler {U} (h : UserToolHandler U) : ToolHandlerFunc U :=
  fun ctx request w =>
    let '(out, u') := h ctx request (user w) in
    (out, mkWorld u' (trace w ++ [EvToolHandler ctx request out]) (heap w)).

Definition taskToolHandler {U} (h : UserTaskToolHandler U) : TaskToolHandlerFunc U :=
  fun ctx request w =>
    let '(out, u') := h ctx request (user w) in
    (out, mkWorld u' (trace w ++ [EvTaskToolHandler ctx request out]) (heap w)).

(** A legacy middleware, seen from the handler it wraps: on each call it may
    read and update its own state, call the wrapped handler any number of
    times with requests of its choosing, and finally return.  It has no
    other access to the world; in particular the side-channel cells are out
    of its reach, as they are for Go code outside the adaptor's closure. *)
Inductive Legacy (U : Type) : Type :=
| Return (out : option CallToolResult * option error)
| CallNext (ctx : Context) (request : CallToolRequest)
    (k : option CallToolResult * option error -> Legacy U)
| Update (f : U -> U) (k : Legacy U)
| Inspect (k : U -> Legacy U).
Arguments Return {U} _.
Arguments CallNext {U} _ _ _.
Arguments Update {U} _ _.
Arguments Inspect {U} _.

Fixpoint runLegacy {U} (p : Legacy U) (next : ToolHandlerFunc U)
  : M U (option CallToolResult * option error) :=
  match p with
  | Return out => ret out
  | CallNext ctx request k => bind (next ctx request) (fun out => runLegacy (k out) next)
  | Update f k => bind (modify f) (fun _ => runLegacy k next)
  | Inspect k => fun w => runLegacy (k (user w)) next w
  end.

Definition legacyMiddleware {U} (body : Context -> CallToolRequest -> Legacy U)
  : ToolHandlerMiddleware U :=
  fun next ctx request => runLegacy (body ctx request) next.

(** Serving a sequence of calls with one handler, one after the other. *)
Fixpoint serve {U A} (h : Context -> CallToolRequest -> M U A)
    (calls : list (Context * CallToolRequest)) : M U (list A) :=
  match calls with
  | [] => ret []
  | (ctx, request) :: rest =>
      bind (h ctx request) (fun out =>
      bind (serve h rest) (fun outs => ret (out :: outs)))
  end.

End exec.

(** ** Package [server]: [task_tool.go] *)
Module server.
Import context mcp exec.
#[local] Open Scope exec_scope.

(** The sentinel errors of package [server] are declared outside
    [task_tool.go]; the code only returns them, so they are parameters. *)
Class Sentinels : Type := {
  ErrInvalidToolResult : error;
  ErrInvalidResultPayload : error
}.

(** Modelled from the spec: the [Hooks] type is declared outside
    [task_tool.go]. Its before-call and after-call hooks are caller-supplied
    callbacks; running one acts on the caller's state and is recorded in
    the trace. *)
Record Hooks (U : Type) : Type := mkHooks {
  OnBeforeCallTool : Context -> any -> option CallToolRequest -> U -> U;
  OnAfterCallTool : Context -> any -> option CallToolRequest -> option CallToolResult -> U -> U
}.
Arguments OnBeforeCallTool {U} _ _ _ _ _.
Arguments OnAfterCallTool {U} _ _ _ _ _ _.

Definition beforeCallTool {U} (hooks : Hooks U) (ctx : Context) (id : any)
    (message : option CallToolRequest) : M U unit :=
  emit (EvBeforeCallTool ctx id message) >>
  modify (OnBeforeCallTool hooks ctx id message).

Definition afterCallTool {U} (hooks : Hooks U) (ctx : Context) (id : any)
    (message : option CallToolRequest) (result : option CallToolResult) : M U unit :=
  emit (EvAfterCallTool ctx id message result) >>
  modify (OnAfterCallTool hooks ctx id message result).

Section TaskTool.
Context `{Sentinels} {U : Type}.

Definition ValidateAnyToolResult (value : option AnyToolResult) : option error :=
  match value with
  | None => Some ErrInvalidToolResult
  | Some (dyn_CallToolResult _) => None
  | Some (dyn_CreateTaskResult _) => None
  | Some _ => Some ErrInvalidToolResult
  end.

Definition ValidateTaskPayload (value : TaskPayloadResult) : option error :=
  match value with
  | dyn_CallToolResultPtr _ => None
  | _ => Some ErrInvalidResultPayload
  end.

Definition NewTaskToolAdaptor (handler : ToolHandlerFunc U) : TaskToolHandlerFunc U :=
  fun ctx request =>
    let* (result, err) := handler ctx request in
    match err with
    | Some e => ret (None, Some e)
    | None =>
        match result with
        | None => ret (None, Some ErrInvalidToolResult)
        | Some r => ret (Some (dyn_CallToolResult r), None)
        end
    end.

Definition NewTaskToolHandlerMiddlewareAdaptor
    (targetMiddleware : ToolHandlerMiddleware U) : TaskToolHandlerMiddleware U :=
  fun next =>
    let* taskResult := new_cell in
    let adapted := targetMiddleware (fun ctx request =>
      let* (anyResult, err) := next ctx request in
      match err with
      | Some e => ret (None, Some e)
      | None =>
          match anyResult with
          | Some (dyn_CallToolResult nextResult) => ret (Some nextResult, None)
          | Some (dyn_CreateTaskResult nextResult) =>
              store taskResult (Some nextResult) >>
              (* Task augmented tool - no CallToolResult, legacy middleware
                 gets pointer to nil value *)
              ret (Some emptyCallToolResult, None)
          | _ => ret (Some emptyCallToolResult, None)
          end
      end) in
    ret (fun ctx request =>
      let* (result, err) := adapted ctx request in
      match err with
      | Some e => ret (None, Some e)
      | None =>
          let* captured := load taskResult in
          match captured with
          | Some t => ret (Some (dyn_CreateTaskResult t), None)
          | None =>
              match result with
              | None => ret (None, Some ErrInvalidToolResult)
              | Some r => ret (Some (dyn_CallToolResult r), None)
              end
          end
      end).

(** The two closures of the adaptor, on their own, with the captured cell as
    an argument: the synchronous-shaped function handed to the legacy
    middleware (lines 50-65) ... *)
Definition syncShaped (taskResult : nat) (next : TaskToolHandlerFunc U)
  : ToolHandlerFunc U :=
  fun ctx request =>
    let* (anyResult, err) := next ctx request in
    match err with
    | Some e => ret (None, Some e)
    | None =>
        match anyResult with
        | Some (dyn_CallToolResult nextResult) => ret (Some nextResult, None)
        | Some (dyn_CreateTaskResult nextResult) =>
            store taskResult (Some nextResult) >>
            ret (Some emptyCallToolResult, None)
        | _ => ret (Some emptyCallToolResult, None)
        end
    end.

(** ... and the handler the adaptor returns (lines 66-80). That the adaptor
    is made of these two is lemma [adaptor_unfold] below. *)
Definition collect (taskResult : nat) (adapted : ToolHandlerFunc U)
  : TaskToolHandlerFunc U :=
  fun ctx request =>
    let* (result, err) := adapted ctx request in
    match err with
    | Some e => ret (None, Some e)
    | None =>
        let* captured := load taskResult in
        match captured with
        | Some t => ret (Some (dyn_CreateTaskResult t), None)
        | None =>
            match result with
            | None => ret (None, Some ErrInvalidToolResult)
            | Some r => ret (Some (dyn_CallToolResult r), None)
            end
        end
    end.

Definition NewTaskToolBeforeHookAdaptor (hooks : Hooks U)
  : Context -> any -> option CallToolRequest -> M U unit :=
  fun ctx id message => beforeCallTool hooks ctx id message.

Definition NewTaskToolAfterHookAdaptor (hooks : Hooks U)
  : Context -> any -> option CallToolRequest -> option AnyToolResult -> M U unit :=
  fun ctx id message result =>
    match result with
    | Some (dyn_CallToolResult callToolResult) =>
        afterCallTool hooks ctx id message (Some callToolResult)
    | _ => ret tt
    end.

End TaskTool.
End server.

(** ** Package [mcp]: typed tool handlers *)
Module typed.
Import context mcp exec.
#[local] Open Scope exec_scope.

Section Typed.
Context {U T : Type}.

(** [var args T]: the zero value of the declared argument type. *)
Variable zero : T.

(** [request.BindArguments(&args)] belongs to the argument binder, an
    external collaborator: given the request and the variable to fill it
    returns the variable's new content and an error. *)
Variable BindArguments : CallToolRequest -> T -> T * option error.

Definition TypedToolHandlerFunc : Type :=
  Context -> CallToolRequest -> T -> M U (option CallToolResult * option error).

Definition TypedTaskToolHandlerFunc : Type :=
  Context -> CallToolRequest -> T -> M U (option AnyToolResult * option error).

Definition NewTypedToolHandler (handler : TypedToolHandlerFunc) : ToolHandlerFunc U :=
  fun ctx request =>
    let '(args, err) := BindArguments request zero in
    match err with
    | Some e =>
        ret (Some (NewToolResultError ("failed to bind arguments: " +:+ Error e)), None)
    | None => handler ctx request args
    end.

Definition NewTypedTaskToolHandler (handler : TypedTaskToolHandlerFunc)
  : TaskToolHandlerFunc U :=
  fun ctx request =>
    let '(args, err) := BindArguments request zero in
    match err with
    | Some e =>
        let toolErr : AnyToolResult :=
          dyn_CallToolResult (NewToolResultError ("failed to bind arguments: " +:+ Error e)) in
        ret (Some toolErr, None)
    | None => handler ctx request args
    end.

(** Caller-supplied typed handlers; running one is recorded in the trace. *)
Definition typedToolHandler
    (h : Context -> CallToolRequest -> T -> U -> (option CallToolResult * option error) * U)
  : TypedToolHandlerFunc :=
  fun ctx request args => toolHandler (fun c r => h c r args) ctx request.

Definition typedTaskToolHandler
    (h : Context -> CallToolRequest -> T -> U -> (option AnyToolResult * option error) * U)
  : TypedTaskToolHandlerFunc :=
  fun ctx request args => taskToolHandler (fun c r => h c r args) ctx request.

End Typed.
End typed.

(** ** The espresso example: handler and worker *)
Module espresso.
Import context mcp.

(** Package [time]: durations are [int64] nanoseconds. *)
Definition wrap64 (z : Z) : Z := ((z + 2 ^ 63) mod 2 ^ 64 - 2 ^ 63)%Z.
Definition time_Second : Z := 1000000000%Z.
Definition time_Hour : Z := (3600 * time_Second)%Z.

Definition RoastType : Type := string.
Definition RoastTypeLight : RoastType := "light".
Definition RoastTypeMedium : RoastType := "medium".
Definition RoastTypeDark : RoastType := "dark".

(** What [%s] prints for an error value. *)
Definition fmt_s (e : option error) : string :=
  match e with
  | Some e => Error e
  | None => "%!s(<nil>)"
  end.

(** How a function body ends: it returns, the process exits
    ([log.Fatalf]), or a nil pointer is dereferenced. *)
Inductive Outcome (A : Type) : Type :=
| Returned (a : A)
| Exited (msg : string)
| Panicked.
Arguments Returned {A} _.
Arguments Exited {A} _.
Arguments Panicked {A}.

Section Espresso.
(** Floating point is not modelled: [float64] is abstract, and
    [warmup t] stands for the integer [time.Duration(t/3)]. *)
Variable float64 : Type.
Variable warmup : float64 -> Z.

Record EspressoArgs : Type := mkEspressoArgs {
  Roast : RoastType;
  Recipient : string;
  Shots : Z;
  Temperature : float64;
  Preinfusion : bool
}.

Definition withRecipient (args : EspressoArgs) (recipient : string) : EspressoArgs :=
  mkEspressoArgs (Roast args) recipient (Shots args) (Temperature args) (Preinfusion args).

(** Everything the handler and the worker do to the outside, in order. *)
Inductive Effect : Type :=
| CreateTask (ctx : Context) (opts : list TaskOption)
| FailTask (ctx : Context) (taskId : string) (err : error)
| CompleteTask (ctx : Context) (taskId : string) (result : option TaskPayloadResult)
| CancelTask (ctx : Context) (taskId : string)
| RequestInput (ctx : Context) (taskId : string) (request : ElicitationRequest)
| Spawn (ctx : Context) (args : EspressoArgs) (taskId : string)
| Sleep (d : Z)
| Select (ctx : Context) (timer : Z)
| Printf (msg : string).

(** The task manager and the scheduler are external collaborators. Each
    answer may depend on everything that happened before. [onSelect]
    tells whether [ctx.Done()] is ready before the timer. *)
Record Env : Type := mkEnv {
  onCreateTask : list Effect -> Context -> list TaskOption
                 -> Context * string * CreateTaskResult;
  onFailTask : list Effect -> Context -> string -> error -> option error;
  onCompleteTask : list Effect -> Context -> string -> option TaskPayloadResult
                   -> option error;
  onCancelTask : list Effect -> Context -> string -> option error;
  onRequestInput : list Effect -> Context -> string -> ElicitationRequest
                   -> option ElicitationResult * option error;
  onSelect : list Effect -> Context -> Z -> bool
}.

Definition E (A : Type) : Type := list Effect -> Outcome A * list Effect.

Definition ret {A} (a : A) : E A := fun tr => (Returned a, tr).

Definition bind {A B} (m : E A) (k : A -> E B) : E B :=
  fun tr =>
    match m tr with
    | (Returned a, tr') => k a tr'
    | (Exited msg, tr') => (Exited msg, tr')
    | (Panicked, tr') => (Panicked, tr')
    end.

Definition perform {A} (e : Effect) (answer : list Effect -> A) : E A :=
  fun tr => (Returned (answer tr), (tr ++ [e])%list).

Definition Fatalf {A} (msg : string) : E A := fun tr => (Exited msg, (tr ++ [Printf msg])%list).

Definition panic {A} : E A := fun tr => (Panicked, tr).

Declare Scope espresso_scope.
#[local] Notation "'let*' x ':=' c 'in' k" := (bind c (fun x => k))
  (at level 10, x pattern, c at level 100, k at level 200, only parsing) : espresso_scope.
#[local] Notation "c >> k" := (bind c (fun _ => k))
  (at level 100, k at level 200, right associativity, only parsing) : espresso_scope.
#[local] Open Scope espresso_scope.

Variable mcpServer : Env.

Definition elicitCustomerName : ElicitationRequest :=
  {| Params := {|
       Message := "I need to more information to prepare your espresso drink.";
       RequestedSchema := any_map {[
         "type" := any_string "object";
         "properties" := any_map {[
           "customerName" := any_map {[
             "type" := any_string "string";
             "description" := any_string "What is the customer's name?";
             "minLength" := any_int 1 ]} ]};
         "required" := any_strings ["customerName"] ]} |} |}.

(** Report a failure through the task manager and log it (the three
    blocks of lines 151-155, 158-162 and 164-168). *)
Definition failAndLog (ctx : Context) (taskId : string) (err : error) : E unit :=
  let* reported := perform (FailTask ctx taskId err)
                           (fun tr => onFailTask mcpServer tr ctx taskId err) in
  perform (Printf ("error making espresso: " +:+ fmt_s (errors_Join [Some err; reported])))
          (fun _ => tt).

Definition makeEspresso (ctx : Context) (args : EspressoArgs) (taskId : string) : E unit :=
  (* Let the machine warm up, during which time the order might be cancelled *)
  perform (Sleep (wrap64 (time_Second * warmup (Temperature args)))) (fun _ => tt) >>
  let* done := perform (Select ctx (20 * time_Second))
                       (fun tr => onSelect mcpServer tr ctx (20 * time_Second)%Z) in
  if done : bool then ret tt else
  (* Ask for a name *)
  let* asked :=
    (if decide (Recipient args = "") then
       let request := elicitCustomerName in
       let* (result, err) := perform (RequestInput ctx taskId request)
                               (fun tr => onRequestInput mcpServer tr ctx taskId request) in
       match err with
       | Some err =>
           let* reported := perform (FailTask ctx taskId err)
                              (fun tr => onFailTask mcpServer tr ctx taskId err) in
           Fatalf ("error: something went wrong requesting input: "
                   +:+ fmt_s (errors_Join [Some err; reported]))
       | None =>
           match result with
           | None => panic
           | Some result =>
               (* Handle the customer's response *)
               match Action result with
               | ElicitationResponseActionCancel =>
                   let* err := perform (CancelTask ctx taskId)
                                 (fun tr => onCancelTask mcpServer tr ctx taskId) in
                   match err with
                   | Some err =>
                       perform (Printf ("warn: unable to cancel task: " +:+ Error err))
                               (fun _ => tt)
                   | None => ret tt
                   end >>
                   ret None
               | action =>
                   let args :=
                     match action with
                     | ElicitationResponseActionDecline =>
                         withRecipient args "anonymous customer"
                     | _ => args
                     end in
                   let '(data, ok) :=
                     match ElicitationResult_Content result with
                     | any_map m => (m, true)
                     | _ => (∅, false)
                     end in
                   (if ok : bool then ret tt else
                      failAndLog ctx taskId (errorString
                        ("unexpected input result type: expected map[string]any, got "
                         +:+ typeName (ElicitationResult_Content result)))) >>
                   let '(customerName, exists_) :=
                     match data !! "customerName" with
                     | Some v => (v, true)
                     | None => (any_nil, false)
                     end in
                   (if exists_ : bool then ret tt else
                      failAndLog ctx taskId (errorString
                        ("unexpected input result type: expected map[string]any, got "
                         +:+ typeName (ElicitationResult_Content result)))) >>
                   let '(recipient, ok) :=
                     match customerName with
                     | any_string s => (s, true)
                     | _ => ("", false)
                     end in
                   let args := withRecipient args recipient in
                   (if ok : bool then ret tt else
                      failAndLog ctx taskId (errorString
                        ("unexpected input result type: expected string, got "
                         +:+ typeName (ElicitationResult_Content result)))) >>
                   ret (Some args)
               end
           end
       end
     else ret (Some args)) in
  match asked with
  | None => ret tt
  | Some args =>
      (* Go-ahead and pull the shot *)
      let seconds := (time_Second * 35)%Z in
      let seconds := if Preinfusion args then wrap64 (seconds + 10) else seconds in
      perform (Sleep seconds) (fun _ => tt) >>
      let result : TaskPayloadResult :=
        dyn_CallToolResult
          {| CallToolResult_Content :=
               [NewTextContent (pretty (Shots args) +:+ " shots of " +:+ Roast args
                                +:+ " for " +:+ Recipient args +:+ "!")];
             StructuredContent := any_nil;
             IsError := false |} in
      let* err := perform (CompleteTask ctx taskId (Some result))
                    (fun tr => onCompleteTask mcpServer tr ctx taskId (Some result)) in
      match err with
      | Some err =>
          let* reported := perform (FailTask ctx taskId err)
                             (fun tr => onFailTask mcpServer tr ctx taskId err) in
          Fatalf ("error: unable to complete task: "
                  +:+ fmt_s (errors_Join [Some err; reported]))
      | None => ret tt
      end
  end.

Definition espressoHandler (ctx : Context) (request : CallToolRequest)
    (args : EspressoArgs) : E (option AnyToolResult * option error) :=
  (* Task tools must _immediately_ return task results *)
  let opts := [WithTaskTTL (wrap64 (1 * time_Hour))] in
  let* (taskCtx, taskId, result) :=
    perform (CreateTask ctx opts) (fun tr => onCreateTask mcpServer tr ctx opts) in
  let* failed :=
    (if decide (Roast args = "") then
       (* Setup errors in handler thread get reported via tasks API. *)
       perform (FailTask ctx taskId (errorString "recipient is required"))
         (fun tr => onFailTask mcpServer tr ctx taskId (errorString "recipient is required"))
     else
       perform (Spawn taskCtx args taskId) (fun _ => None)) in
  match failed with
  | Some err => ret (None, Some err)
  | None => ret (ToAnyResult result, None)
  end.

End Espresso.

Arguments mkEspressoArgs {float64} _ _ _ _ _.
Arguments Roast {float64} _.
Arguments Recipient {float64} _.
Arguments Shots {float64} _.
Arguments Temperature {float64} _.
Arguments Preinfusion {float64} _.
Arguments CreateTask {float64} _ _.
Arguments FailTask {float64} _ _ _.
Arguments CompleteTask {float64} _ _ _.
Arguments CancelTask {float64} _ _.
Arguments RequestInput {float64} _ _ _.
Arguments Spawn {float64} _ _ _.
Arguments Sleep {float64} _.
Arguments Select {float64} _ _.
Arguments Printf {float64} _.
Arguments mkEnv {float64} _ _ _ _ _ _.
Arguments onCreateTask {float64} _ _ _ _.
Arguments onFailTask {float64} _ _ _ _ _.
Arguments onCompleteTask {float64} _ _ _ _ _.
Arguments onCancelTask {float64} _ _ _ _.
Arguments onRequestInput {float64} _ _ _ _ _.
Arguments onSelect {float64} _ _ _ _.
Arguments makeEspresso {float64} _ _ _ _ _ _.
Arguments espressoHandler {float64} _ _ _ _ _.
End espresso.

(** ** Package [mcp]: structured tool handlers *)
Module structured.
Import context mcp exec.
#[local] Open Scope exec_scope.

Section Structured.
Context {U TArgs TResult : Type}.

(** [var args TArgs]. *)
Variable zero : TArgs.

Variable BindArguments : CallToolRequest -> TArgs -> TArgs * option error.

(** [NewToolResultStructuredOnly] is declared outside the file. Line 55
    returns its value where a [*CallToolResult] is expected, so it yields a
    pointer to an immediate result; what the pointer holds is a parameter. *)
Variable NewToolResultStructuredOnly : TResult -> option CallToolResult.

Definition StructuredToolHandlerFunc : Type :=
  Context -> CallToolRequest -> TArgs -> M U (TResult * option error).

Definition NewStructuredToolHandler (handler : StructuredToolHandlerFunc)
  : ToolHandlerFunc U :=
  fun ctx request =>
    let '(args, err) := BindArguments request zero in
    match err with
    | Some e =>
        ret (Some (NewToolResultError ("failed to bind arguments: " +:+ Error e)), None)
    | None =>
        let* (result, err) := handler ctx request args in
        match err with
        | Some e =>
            ret (Some (NewToolResultError ("tool execution failed: " +:+ Error e)), None)
        | None => ret (NewToolResultStructuredOnly result, None)
        end
    end.

Definition NewStructuredTaskToolHandler (handler : StructuredToolHandlerFunc)
  : TaskToolHandlerFunc U :=
  fun ctx request =>
    let '(args, err) := BindArguments request zero in
    match err with
    | Some e =>
        let toolErr : AnyToolResult :=
          dyn_CallToolResult (NewToolResultError ("failed to bind arguments: " +:+ Error e)) in
        ret (Some toolErr, None)
    | None =>
        let* (result, err) := handler ctx request args in
        match err with
        | Some e =>
            let toolErr : AnyToolResult :=
              dyn_CallToolResult (NewToolResultError ("tool execution failed: " +:+ Error e)) in
            ret (Some toolErr, None)
        | None =>
            let anyResult : AnyToolResult :=
              dyn_CallToolResultPtr (NewToolResultStructuredOnly result) in
            ret (Some anyResult, None)
        end
    end.

(** Caller-supplied structured handlers act on their own state. (The trace
    has no event for a handler with a typed result.) *)
Definition structuredHandler
    (h : Context -> CallToolRequest -> TArgs -> U -> (TResult * option error) * U)
  : StructuredToolHandlerFunc :=
  fun ctx request args w =>
    let '(out, u') := h ctx request args (user w) in
    (out, mkWorld u' (trace w) (heap w)).

End Structured.
End structured.

(** ** Package [server]: the tool collections of [task_tool.go] *)
Module tools.

(** [slices.IndexFunc]: the index of the first element satisfying [f], or
    [-1]. *)
Fixpoint IndexFunc_from {A} (i : Z) (s : list A) (f : A -> bool) : Z :=
  match s with
  | [] => (-1)%Z
  | x :: rest => if f x then i else IndexFunc_from (i + 1)%Z rest f
  end.

Definition slices_IndexFunc {A} (s : list A) (f : A -> bool) : Z :=
  IndexFunc_from 0%Z s f.

Section Tools.
(** The tool records, [ServerTool.ToTaskTool] and the task-support constants
    are declared outside [task_tool.go]. [TaskSupport tool] stands for the
    field [tool.Tool.Execution.TaskSupport]. *)
Context {ServerTool ServerTaskTool ToolTaskSupport : Type} `{EqDecision ToolTaskSupport}.
Variable ToTaskTool : ServerTool -> ServerTaskTool.
Variable TaskSupport : ServerTaskTool -> ToolTaskSupport.
Variables ToolTaskSupportOptional ToolTaskSupportRequired : ToolTaskSupport.

(** AdaptTools migrates ServerTools into ServerTaskTools with support for
    task augmentation. *)
Definition AdaptTools (tools : list ServerTool) : list ServerTaskTool :=
  fold_left (fun taskTools tool => taskTools ++ [ToTaskTool tool]) tools [].

Definition containTaskAugmented (tools : list ServerTaskTool) : bool :=
  (0 <=? slices_IndexFunc tools (fun tool =>
            bool_decide (TaskSupport tool = ToolTaskSupportOptional)
            || bool_decide (TaskSupport tool = ToolTaskSupportRequired)))%Z.

End Tools.
End tools.

(** ** Vocabulary of the properties *)
Module notions.
Import context mcp exec server.

(** The two legal cases of the result union. *)
Definition isImmediateResult (v : AnyToolResult) : Prop :=
  exists r, v = dyn_CallToolResult r.

Definition isTaskHandle (v : AnyToolResult) : Prop :=
  exists t, v = dyn_CreateTaskResult t.

Definition legalToolResult (value : option AnyToolResult) : Prop :=
  exists v, value = Some v /\ (isImmediateResult v \/ isTaskHandle v).

(** The one legal case of the payload union: an immediate result, which the
    payload interface holds by pointer. *)
Definition legalTaskPayload (value : TaskPayloadResult) : Prop :=
  exists p, value = dyn_CallToolResultPtr p.

(** The task handle most recently returned, without error, by the inner
    handler among the given events. *)
Definition returnedTaskHandle (ev : Event) : option CreateTaskResult :=
  match ev with
  | EvTaskToolHandler _ _ (Some (dyn_CreateTaskResult t), None) => Some t
  | _ => None
  end.

Fixpoint lastTaskHandle (evs : list Event) : option CreateTaskResult :=
  match evs with
  | [] => None
  | ev :: rest =>
      match lastTaskHandle rest with
      | Some t => Some t
      | None => returnedTaskHandle ev
      end
  end.

(** What a call added to the trace. *)
Definition newEvents {U} (before after : World U) : list Event :=
  drop (length (trace before)) (trace after).

(** A handler that always answers with an immediate result and no error. *)
Definition alwaysImmediate {U} (h : UserTaskToolHandler U) : Prop :=
  forall ctx request u, exists r, (h ctx request u).1 = (Some (dyn_CallToolResult r), None).

(** Pass-through legacy middleware: it calls the wrapped handler once, with
    the request it was given, and returns what the handler returned; around
    the call it may do bookkeeping on its own state. *)
Definition passThrough {U} (before : Context -> CallToolRequest -> U -> U)
    (after : Context -> CallToolRequest -> option CallToolResult * option error -> U -> U)
  : Context -> CallToolRequest -> Legacy U :=
  fun ctx request =>
    Update (before ctx request)
      (CallNext ctx request (fun out =>
         Update (after ctx request out) (Return out))).

(** [strings.Contains]. *)
Fixpoint contains (s sub : string) : bool :=
  String.prefix sub s ||
  match s with
  | EmptyString => false
  | String _ rest => contains rest sub
  end.

(** The errors passed to [FailTask], the texts passed to [CompleteTask] and
    the workers spawned, in the order of a trace of the espresso example. *)
Definition failTaskErrors {float64} (tr : list (espresso.Effect float64)) : list error :=
  omap (fun e => match e with espresso.FailTask _ _ err => Some err | _ => None end) tr.

Definition completedTexts {float64} (tr : list (espresso.Effect float64))
  : list (list Content) :=
  omap (fun e =>
          match e with
          | espresso.CompleteTask _ _ (Some (dyn_CallToolResult r)) =>
              Some (CallToolResult_Content r)
          | _ => None
          end) tr.

(** A legacy middleware body that answers by itself: it never calls the
    handler it wraps. *)
Inductive silent {U} : Legacy U -> Prop :=
| silent_Return (out : option CallToolResult * option error) : silent (Return out)
| silent_Update (f : U -> U) (k : Legacy U) : silent k -> silent (Update f k)
| silent_Inspect (k : U -> Legacy U) : (forall u, silent (k u)) -> silent (Inspect k).

(** The state of the world when a pass-through middleware calls the handler
    it wraps. *)
Definition atCall {U} (before : Context -> CallToolRequest -> U -> U)
    (ctx : Context) (request : CallToolRequest) (w : World U) : World U :=
  mkWorld (before ctx request (user w)) (trace w) (heap w).

(** How many times a trace of the espresso example calls [CompleteTask], and
    how many tasks or workers it starts. *)
Definition completeTaskCalls {float64} (tr : list (espresso.Effect float64)) : nat :=
  length (omap (fun e => match e with
                        | espresso.CompleteTask _ _ _ => Some e
                        | _ => None
                        end) tr).

Definition startCalls {float64} (tr : list (espresso.Effect float64)) : nat :=
  length (omap (fun e => match e with
                        | espresso.CreateTask _ _ | espresso.Spawn _ _ _ => Some e
                        | _ => None
                        end) tr).

(** The worker's first two steps (the warm-up sleep, then the wait for
    cancellation or the timer), the time it takes to pull the shot, and the
    payload it submits for a given recipient. *)
Definition warmUp {float64} (warmup : float64 -> Z) (ctx : Context)
    (args : espresso.EspressoArgs float64) : list (espresso.Effect float64) :=
  [espresso.Sleep (espresso.wrap64 (espresso.time_Second * warmup (espresso.Temperature args)));
   espresso.Select ctx (20 * espresso.time_Second)%Z].

Definition pullTime {float64} (args : espresso.EspressoArgs float64) : Z :=
  if espresso.Preinfusion args then 35000000010%Z else 35000000000%Z.

Definition espressoPayload {float64} (args : espresso.EspressoArgs float64)
    (recipient : string) : option TaskPayloadResult :=
  @Some TaskPayloadResult
    (dyn_CallToolResult
       {| CallToolResult_Content :=
            [TextContent (pretty (espresso.Shots args) +:+ " shots of "
                          +:+ espresso.Roast args +:+ " for " +:+ recipient +:+ "!")];
          StructuredContent := any_nil;
          IsError := false |}).

(** A computation of the espresso example that calls [CompleteTask] at most
    [n] times and starts no task or worker, from whatever trace it is run. *)
Definition completesAtMost {float64 A} (m : espresso.E float64 A) (n : nat) : Prop :=
  forall tr, completeTaskCalls (m tr).2 <= completeTaskCalls tr + n
             /\ startCalls (m tr).2 = startCalls tr.

(** The effects counted by [completeTaskCalls] and [startCalls]. *)
Definition counted {float64} (e : espresso.Effect float64) : bool :=
  match e with
  | espresso.CompleteTask _ _ _ | espresso.CreateTask _ _ | espresso.Spawn _ _ _ => true
  | _ => false
  end.

(** The customer name found in an elicitation answer: the string under
    ["customerName"] when the answer is a map that has one, the empty string
    otherwise. *)
Definition customerNameOf (content : any) : string :=
  match content with
  | any_map m =>
      match m !! "customerName" with
      | Some (any_string s) => s
      | _ => ""
      end
  | _ => ""
  end.

End notions.

(** ** Concrete handlers, middleware and worlds used as examples *)
Module scenarios.
Import context mcp exec server notions.

Definition sentinels : Sentinels :=
  {| ErrInvalidToolResult := errorString "ErrInvalidToolResult";
     ErrInvalidResultPayload := errorString "ErrInvalidResultPayload" |}.

Definition asyncRequest : CallToolRequest := mkCallToolRequest "brew" (any_string "async").
Definition syncRequest : CallToolRequest := mkCallToolRequest "brew" (any_string "sync").

Definition brewTask : CreateTaskResult := mkCreateTaskResult "task-1" TaskStatusWorking.

Definition brewed : CallToolResult :=
  {| CallToolResult_Content := [TextContent "done"];
     StructuredContent := any_nil;
     IsError := false |}.

Definition stamped : CallToolResult :=
  {| CallToolResult_Content := [TextContent "seen by middleware"];
     StructuredContent := any_nil;
     IsError := false |}.

(** A handler that defers the work when asked to and answers at once
    otherwise. *)
Definition byRequest : UserTaskToolHandler unit :=
  fun _ request u =>
    match Arguments request with
    | any_string s =>
        if String.eqb s "async" then ((ToAnyResult brewTask, None), u)
        else ((Some (dyn_CallToolResult brewed), None), u)
    | _ => ((Some (dyn_CallToolResult brewed), None), u)
    end.

(** A handler that always answers at once. *)
Definition alwaysBrewed : UserTaskToolHandler unit :=
  fun _ _ u => ((Some (dyn_CallToolResult brewed), None), u).

(** Middleware that only forwards. *)
Definition forward : Context -> CallToolRequest -> Legacy unit :=
  passThrough (fun _ _ u => u) (fun _ _ _ u => u).

(** Middleware that runs the handler and then replaces the result. *)
Definition stamp : Context -> CallToolRequest -> Legacy unit :=
  fun ctx request => CallNext ctx request (fun _ => Return (Some stamped, None)).

(** Middleware that runs the handler and then reports an error of its own. *)
Definition quotaExceeded : error := errorString "quota exceeded".

Definition chargeAfterwards : Context -> CallToolRequest -> Legacy unit :=
  fun ctx request => CallNext ctx request (fun out => Return (out.1, Some quotaExceeded)).

Definition world0 : World unit := mkWorld tt [] [].

(** The world once an adaptor has been built in [world0]. *)
Definition world1 : World unit := mkWorld tt [] [None].

(** The world after one deferred call in [world1]. *)
Definition world2 : World unit :=
  mkWorld tt [EvTaskToolHandler "ctx" asyncRequest (Some (dyn_CreateTaskResult brewTask), None)]
          [Some brewTask].

(** An argument binder for a handler that takes the number of shots. *)
Definition bindShots (request : CallToolRequest) (args : Z) : Z * option error :=
  match Arguments request with
  | any_int n => (n, None)
  | v => (args, Some (errorString ("cannot bind " +:+ typeName v +:+ " to int")))
  end.

Definition pullShots : Context -> CallToolRequest -> Z -> unit
                       -> (option AnyToolResult * option error) * unit :=
  fun _ _ _ u => ((Some (dyn_CallToolResult brewed), None), u).

Definition pullShotsSync : Context -> CallToolRequest -> Z -> unit
                           -> (option CallToolResult * option error) * unit :=
  fun _ _ _ u => ((Some brewed, None), u).

(** A task manager that accepts every transition, on a customer who declines
    to give a name, with no cancellation. *)
Definition decliningCustomer : espresso.Env unit :=
  espresso.mkEnv
    (fun _ _ _ => ("task-ctx", "task-1", brewTask))
    (fun _ _ _ _ => None)
    (fun _ _ _ _ => None)
    (fun _ _ _ => None)
    (fun _ _ _ _ =>
       (Some (mkElicitationResult ElicitationResponseActionDecline any_nil), None))
    (fun _ _ _ => false).

(** An order that names the roast but not the recipient, and one that names
    neither. *)
Definition darkDouble : espresso.EspressoArgs unit :=
  espresso.mkEspressoArgs "dark" "" 2 tt false.

Definition noRoast : espresso.EspressoArgs unit :=
  espresso.mkEspressoArgs "" "" 2 tt false.

(** Middleware that refuses every call without running the handler. *)
Definition refuse : Context -> CallToolRequest -> Legacy unit :=
  fun _ _ => Return (None, Some quotaExceeded).

(** A handler that fails. *)
Definition brokenGrinder : error := errorString "grinder jammed".

Definition alwaysFails : UserTaskToolHandler unit :=
  fun _ _ u => ((None, Some brokenGrinder), u).

(** A handler that returns an immediate result by pointer, a shape outside
    the result union. *)
Definition byPointer : UserTaskToolHandler unit :=
  fun _ _ u => ((Some (dyn_CallToolResultPtr (Some brewed)), None), u).

(** The world [world2] once a second adaptor has been built in it. *)
Definition world3 : World unit :=
  mkWorld tt (trace world2) [Some brewTask; None].

(** A structured handler that reports the number of shots pulled, and one
    that fails. *)
Definition countShots : Context -> CallToolRequest -> Z -> unit -> (Z * option error) * unit :=
  fun _ _ shots u => ((shots, None), u).

Definition jammed : Context -> CallToolRequest -> Z -> unit -> (Z * option error) * unit :=
  fun _ _ shots u => ((0%Z, Some brokenGrinder), u).

Definition shotsResult (shots : Z) : option CallToolResult :=
  Some {| CallToolResult_Content := [];
          StructuredContent := any_int shots;
          IsError := false |}.

Definition tripleRequest : CallToolRequest := mkCallToolRequest "brew" (any_int 3).

(** Tool collections: a tool is identified by its name and carries its task
    support. *)
Inductive Support : Type := Forbidden | Optional | Required.

#[export] Instance Support_eq_dec : EqDecision Support.
Proof. solve_decision. Defined.

(** Task managers for the espresso worker, by what the customer answers,
    whether the order is cancelled during warm-up, and what [CompleteTask]
    returns. *)
Definition customer (answer : option ElicitationResult * option error)
    (cancelled : bool) (completion : option error) : espresso.Env unit :=
  espresso.mkEnv
    (fun _ _ _ => ("task-ctx", "task-1", brewTask))
    (fun _ _ _ _ => None)
    (fun _ _ _ _ => completion)
    (fun _ _ _ => None)
    (fun _ _ _ _ => answer)
    (fun _ _ _ => cancelled).

Definition namedAnn : any := any_map {[ "customerName" := any_string "Ann" ]}.

(** An order that names roast and recipient. *)
Definition darkDoubleForBob : espresso.EspressoArgs unit :=
  espresso.mkEspressoArgs "dark" "Bob" 2 tt true.

End scenarios.

(** * Properties *)

(** ** The validators *)
Section Validators.
Import mcp server notions.
Context `{Sentinels}.

(** C7. [ValidateAnyToolResult] returns no error exactly on the two legal
    shapes, an immediate result or a task handle; on the nil pointer and on
    every other value it returns [ErrInvalidToolResult]. *)
Theorem ValidateAnyToolResult_legal_shapes (value : option AnyToolResult) :
  (legalToolResult value /\ ValidateAnyToolResult value = None)
  \/ (~ legalToolResult value
      /\ ValidateAnyToolResult value = Some ErrInvalidToolResult).
Proof.
  destruct value as [v|]; [destruct v|]; simpl;
    try (left; split; [eexists; split; [reflexivity|]; unfold isImmediateResult, isTaskHandle; eauto | reflexivity]);
    right; (split; [|reflexivity]);
    intros (v & Hv & [[r Hr]|[t Ht]]); congruence.
Qed.

(** C8. [ValidateTaskPayload] returns no error only on an immediate-result
    payload; every other shape, a task handle held by value or by pointer
    among them, gets [ErrInvalidResultPayload]. *)
Theorem ValidateTaskPayload_only_immediate (value : TaskPayloadResult) :
  ((legalTaskPayload value /\ ValidateTaskPayload value = None)
   \/ (~ legalTaskPayload value
       /\ ValidateTaskPayload value = Some ErrInvalidResultPayload))
  /\ (forall t, ValidateTaskPayload (dyn_CreateTaskResult t) = Some ErrInvalidResultPayload)
  /\ (forall p, ValidateTaskPayload (dyn_CreateTaskResultPtr p) = Some ErrInvalidResultPayload).
Proof.
  split; [|split; reflexivity].
  destruct value; simpl;
    try (left; split; [eexists; reflexivity | reflexivity]);
    right; (split; [|reflexivity]); intros [q Hq]; congruence.
Qed.

(** The payload validator looks for a pointer: an immediate result held by
    value, as [makeEspresso] submits it, is not accepted. *)
Remark ValidateTaskPayload_rejects_value (r : CallToolResult) :
  ValidateTaskPayload (dyn_CallToolResult r) = Some ErrInvalidResultPayload.
Proof. reflexivity. Qed.

End Validators.

(** ** The middleware adaptor *)
Section MiddlewareAdaptor.
Import context mcp exec server notions.
Context `{Sentinels} {U : Type}.

Lemma lastTaskHandle_cons (ev : Event) (evs : list Event) :
  lastTaskHandle (ev :: evs)
  = match lastTaskHandle evs with Some t => Some t | None => returnedTaskHandle ev end.
Proof. reflexivity. Qed.

Lemma newEvents_app (w w' : World U) (evs : list Event) :
  trace w' = trace w ++ evs -> newEvents w w' = evs.
Proof. intros E. unfold newEvents. rewrite E. apply drop_app_length. Qed.

(** One call of the synchronous-shaped wrapper around a caller-supplied
    handler: the handler runs once, and the cell is written exactly when it
    returned a task handle without error. *)
Lemma syncShaped_step (l : nat) (h : UserTaskToolHandler U)
    (ctx : Context) (request : CallToolRequest) (w : World U) :
  let ev := EvTaskToolHandler ctx request (h ctx request (user w)).1 in
  let w' := (syncShaped l (taskToolHandler h) ctx request w).2 in
  user w' = (h ctx request (user w)).2
  /\ trace w' = trace w ++ [ev]
  /\ heap w' = match returnedTaskHandle ev with
               | Some t => <[l := Some t]> (heap w)
               | None => heap w
               end.
Proof.
  unfold syncShaped, taskToolHandler, bind; simpl.
  destruct (h ctx request (user w)) as [[anyResult err] u']; simpl.
  destruct err as [e|]; [destruct anyResult as [[]|]; auto|].
  destruct anyResult as [v|]; [destruct v|]; simpl; auto.
Qed.

(** A run of a legacy middleware body over the wrapper only adds handler
    events to the trace, and leaves the heap as it was except that the cell
    holds the last task handle the handler returned, if there was one. *)
Lemma runLegacy_syncShaped (l : nat) (h : UserTaskToolHandler U) (p : Legacy U) :
  forall w : World U,
    let w' := (runLegacy p (syncShaped l (taskToolHandler h)) w).2 in
    exists evs,
      trace w' = trace w ++ evs
      /\ heap w' = match lastTaskHandle evs with
                   | Some t => <[l := Some t]> (heap w)
                   | None => heap w
                   end.
Proof.
  induction p as [out | ctx request k IH | f k IH | k IH]; intros w; simpl.
  - exists []. rewrite app_nil_r. auto.
  - unfold bind.
    pose proof (syncShaped_step l h ctx request w) as Hstep.
    cbv zeta in Hstep. destruct Hstep as (_ & Htr & Hheap).
    set (ev := EvTaskToolHandler ctx request (h ctx request (user w)).1) in *.
    destruct (syncShaped l (taskToolHandler h) ctx request w) as [out w1].
    cbn [snd] in Htr, Hheap.
    destruct (IH out w1) as (evs & Htr' & Hheap').
    exists (ev :: evs). split.
    + rewrite Htr', Htr, <- app_assoc. reflexivity.
    + rewrite Hheap', Hheap, lastTaskHandle_cons.
      destruct (lastTaskHandle evs) as [t|]; [|reflexivity].
      destruct (returnedTaskHandle ev); [apply list_insert_insert_eq | reflexivity].
  - unfold bind, modify; simpl.
    destruct (IH (mkWorld (f (user w)) (trace w) (heap w))) as (evs & Htr & Hheap).
    exists evs. auto.
  - apply IH.
Qed.

(** What the adaptor's handler returns, from what the adapted legacy chain
    returned and the content of the cell afterwards. *)
Lemma collect_outcome (l : nat) (adapted : ToolHandlerFunc U)
    (ctx : Context) (request : CallToolRequest) (w w' : World U)
    (result : option CallToolResult) (err : option error) :
  adapted ctx request w = ((result, err), w') ->
  collect l adapted ctx request w
  = (match err with
     | Some e => (None, Some e)
     | None =>
         match default None (heap w' !! l) with
         | Some t => (Some (dyn_CreateTaskResult t), None)
         | None =>
             match result with
             | None => (None, Some ErrInvalidToolResult)
             | Some r => (Some (dyn_CallToolResult r), None)
             end
         end
     end, w').
Proof.
  intros E. unfold collect, bind. rewrite E.
  destruct err as [e|]; [reflexivity|].
  unfold load; simpl.
  destruct (default None (heap w' !! l)); [reflexivity|].
  destruct result; reflexivity.
Qed.

(** The adaptor allocates its cell when it is applied to the inner handler;
    the handler it returns is [collect] over that cell. *)
Lemma adaptor_unfold (targetMiddleware : ToolHandlerMiddleware U)
    (next : TaskToolHandlerFunc U) (w0 : World U) :
  NewTaskToolHandlerMiddlewareAdaptor targetMiddleware next w0
  = (collect (length (heap w0)) (targetMiddleware (syncShaped (length (heap w0)) next)),
     mkWorld (user w0) (trace w0) (heap w0 ++ [None])).
Proof. reflexivity. Qed.

(** C1 (amended). When, during a call of the adapted handler, the inner
    handler returned a task handle without error and the legacy chain itself
    returned without error, the adapted handler returns that task handle,
    whatever placeholder result the legacy chain returned. *)
Theorem adaptor_returns_captured_task
    (body : Context -> CallToolRequest -> Legacy U) (h : UserTaskToolHandler U)
    (w0 w w' : World U) (ctx : Context) (request : CallToolRequest)
    (placeholder : option CallToolResult) (t : CreateTaskResult) :
  length (heap w0) < length (heap w) ->
  legacyMiddleware body (syncShaped (length (heap w0)) (taskToolHandler h)) ctx request w
    = ((placeholder, None), w') ->
  lastTaskHandle (newEvents w w') = Some t ->
  (NewTaskToolHandlerMiddlewareAdaptor (legacyMiddleware body) (taskToolHandler h) w0).1
    ctx request w
  = ((Some (dyn_CreateTaskResult t), None), w').
Proof.
  intros Hcell Hchain Hlast.
  rewrite adaptor_unfold; simpl.
  rewrite (collect_outcome _ _ _ _ _ _ _ _ Hchain).
  pose proof (runLegacy_syncShaped (length (heap w0)) h (body ctx request) w)
    as (evs & Htr & Hheap).
  unfold legacyMiddleware in Hchain. rewrite Hchain in Htr, Hheap. simpl in Htr, Hheap.
  rewrite (newEvents_app _ _ _ Htr) in Hlast.
  rewrite Hlast in Hheap. rewrite Hheap.
  rewrite list_lookup_insert_eq by exact Hcell.
  reflexivity.
Qed.

(** C10. When the adapted legacy chain returns an error, the adapted handler
    returns no result and that error, whatever the cell holds. *)
Theorem adaptor_chain_error_wins
    (targetMiddleware : ToolHandlerMiddleware U) (next : TaskToolHandlerFunc U)
    (w0 w w' : World U) (ctx : Context) (request : CallToolRequest)
    (result : option CallToolResult) (e : error) :
  targetMiddleware (syncShaped (length (heap w0)) next) ctx request w
    = ((result, Some e), w') ->
  (NewTaskToolHandlerMiddlewareAdaptor targetMiddleware next w0).1 ctx request w
  = ((None, Some e), w').
Proof.
  intros Hchain. rewrite adaptor_unfold; simpl.
  apply (collect_outcome _ _ _ _ _ _ _ _ Hchain).
Qed.

(** A call through a pass-through middleware, made while the cell is empty,
    to a handler that answers at once: the handler runs once, in the state
    the middleware's bookkeeping left, its answer is returned as it is, and
    the heap is not touched. *)
Lemma passThrough_immediate_call
    (before : Context -> CallToolRequest -> U -> U)
    (after : Context -> CallToolRequest -> option CallToolResult * option error -> U -> U)
    (h : UserTaskToolHandler U) (l : nat)
    (ctx : Context) (request : CallToolRequest) (w : World U) :
  alwaysImmediate h ->
  heap w !! l = Some None ->
  let direct := h ctx request (before ctx request (user w)) in
  exists r,
    direct.1 = (Some (dyn_CallToolResult r), None)
    /\ collect l (legacyMiddleware (passThrough before after)
                    (syncShaped l (taskToolHandler h))) ctx request w
       = (direct.1,
          mkWorld (after ctx request (Some r, None) direct.2)
                  (trace w ++ [EvTaskToolHandler ctx request direct.1])
                  (heap w)).
Proof.
  intros Himm Hcell direct. subst direct.
  destruct (Himm ctx request (before ctx request (user w))) as [r Hr].
  exists r. split; [exact Hr|].
  cbv [collect legacyMiddleware passThrough runLegacy syncShaped taskToolHandler
       bind modify load ret].
  cbn [user trace heap].
  destruct (h ctx request (before ctx request (user w))) as [[anyResult err] u'].
  cbn [fst snd] in Hr |- *. injection Hr as -> ->.
  cbn [user trace heap]. rewrite Hcell. reflexivity.
Qed.

Lemma serve_keeps_cell_empty
    (before : Context -> CallToolRequest -> U -> U)
    (after : Context -> CallToolRequest -> option CallToolResult * option error -> U -> U)
    (h : UserTaskToolHandler U) (l : nat) (calls : list (Context * CallToolRequest)) :
  alwaysImmediate h ->
  forall w : World U,
    heap w !! l = Some None ->
    heap (serve (collect l (legacyMiddleware (passThrough before after)
                              (syncShaped l (taskToolHandler h)))) calls w).2 !! l
    = Some None.
Proof.
  intros Himm. induction calls as [|[ctx request] rest IH]; intros w Hcell; [exact Hcell|].
  simpl. unfold bind.
  destruct (passThrough_immediate_call before after h l ctx request w Himm Hcell)
    as (r & _ & ->).
  match goal with |- context [serve ?f rest ?w1] =>
    specialize (IH w1 Hcell); destruct (serve f rest w1) as [outs w2] end.
  exact IH.
Qed.

(** C3. A handler that always answers with an immediate result, wrapped by
    the middleware adaptor around a pass-through legacy middleware, returns
    on every call (whatever calls were served before) the immediate result
    that the handler returns when called directly. *)
Theorem adaptor_transparent_for_immediate
    (before : Context -> CallToolRequest -> U -> U)
    (after : Context -> CallToolRequest -> option CallToolResult * option error -> U -> U)
    (h : UserTaskToolHandler U) (w0 : World U)
    (earlier : list (Context * CallToolRequest))
    (ctx : Context) (request : CallToolRequest) :
  alwaysImmediate h ->
  let '(handler, w1) :=
    NewTaskToolHandlerMiddlewareAdaptor
      (legacyMiddleware (passThrough before after)) (taskToolHandler h) w0 in
  let w := (serve handler earlier w1).2 in
  let direct := (h ctx request (before ctx request (user w))).1 in
  (handler ctx request w).1 = direct
  /\ exists r, direct = (Some (dyn_CallToolResult r), None).
Proof.
  intros Himm. rewrite adaptor_unfold. cbv zeta.
  set (l := length (heap w0)).
  set (w1 := mkWorld (user w0) (trace w0) (heap w0 ++ [None])).
  assert (Hcell : heap w1 !! l = Some None).
  { subst w1 l. simpl. apply list_lookup_middle. reflexivity. }
  pose proof (serve_keeps_cell_empty before after h l earlier Himm w1 Hcell) as Hcell'.
  destruct (passThrough_immediate_call before after h l ctx request _ Himm Hcell')
    as (r & Hr & ->).
  split; [reflexivity | exists r; exact Hr].
Qed.

(** X25. The cell outlives the call that wrote it: a later call in which the
    legacy chain returns without error and the inner handler returns no task
    handle still returns the task handle found in the cell. *)
Lemma adaptor_returns_stale_task
    (body : Context -> CallToolRequest -> Legacy U) (h : UserTaskToolHandler U)
    (w0 w w' : World U) (ctx : Context) (request : CallToolRequest)
    (result : option CallToolResult) (t0 : CreateTaskResult) :
  heap w !! length (heap w0) = Some (Some t0) ->
  legacyMiddleware body (syncShaped (length (heap w0)) (taskToolHandler h)) ctx request w
    = ((result, None), w') ->
  lastTaskHandle (newEvents w w') = None ->
  (NewTaskToolHandlerMiddlewareAdaptor (legacyMiddleware body) (taskToolHandler h) w0).1
    ctx request w
  = ((Some (dyn_CreateTaskResult t0), None), w').
Proof.
  intros Hcell Hchain Hlast.
  rewrite adaptor_unfold; simpl.
  rewrite (collect_outcome _ _ _ _ _ _ _ _ Hchain).
  pose proof (runLegacy_syncShaped (length (heap w0)) h (body ctx request) w)
    as (evs & Htr & Hheap).
  unfold legacyMiddleware in Hchain. rewrite Hchain in Htr, Hheap. simpl in Htr, Hheap.
  rewrite (newEvents_app _ _ _ Htr) in Hlast.
  rewrite Hlast in Hheap. rewrite Hheap, Hcell.
  reflexivity.
Qed.

End MiddlewareAdaptor.

(** ** The middleware adaptor on concrete calls *)
Section MiddlewareAdaptorExamples.
Import context mcp exec server notions scenarios.

Lemma adaptor_returns_captured_task_witness :
  (NewTaskToolHandlerMiddlewareAdaptor (H := sentinels)
     (legacyMiddleware stamp) (taskToolHandler byRequest) world0).1
    "ctx" asyncRequest world1
  = ((Some (dyn_CreateTaskResult brewTask), None), world2).
Proof.
  apply (adaptor_returns_captured_task (H := sentinels) stamp byRequest
           world0 world1 world2 "ctx" asyncRequest (Some stamped) brewTask).
  - simpl. lia.
  - reflexivity.
  - reflexivity.
Defined.

(** C1, as stated, fails: the inner handler returns a task handle without
    error, the legacy middleware then returns an error of its own, and the
    adapted handler returns that error instead of the task handle. *)
Lemma task_capture_lost_on_chain_error :
  let '(handler, w1) :=
    NewTaskToolHandlerMiddlewareAdaptor (H := sentinels)
      (legacyMiddleware chargeAfterwards) (taskToolHandler byRequest) world0 in
  let '(out, w2) := handler "ctx" asyncRequest w1 in
  newEvents w1 w2
    = [EvTaskToolHandler "ctx" asyncRequest (Some (dyn_CreateTaskResult brewTask), None)]
  /\ out = (None, Some quotaExceeded)
  /\ out <> (Some (dyn_CreateTaskResult brewTask), None).
Proof.
  vm_compute. repeat split. discriminate.
Qed.

Lemma adaptor_chain_error_wins_witness :
  (NewTaskToolHandlerMiddlewareAdaptor (H := sentinels)
     (legacyMiddleware chargeAfterwards) (taskToolHandler byRequest) world0).1
    "ctx" asyncRequest world1
  = ((None, Some quotaExceeded), world2)
  /\ heap world2 !! length (heap world0) = Some (Some brewTask).
Proof.
  split; [|reflexivity].
  apply (adaptor_chain_error_wins (H := sentinels) (legacyMiddleware chargeAfterwards)
           (taskToolHandler byRequest) world0 world1 world2 "ctx" asyncRequest
           (Some emptyCallToolResult) quotaExceeded).
  reflexivity.
Defined.

(** C2 fails on the code. One adapted handler serves a deferred call and then
    an immediate one: the cell written by the first call is read again by the
    second, which returns the first call's task handle where the inner
    handler, called directly, returns an immediate result. *)
Theorem adaptor_cell_shared_across_calls :
  let '(handler, w1) :=
    NewTaskToolHandlerMiddlewareAdaptor (H := sentinels)
      (legacyMiddleware forward) (taskToolHandler byRequest) world0 in
  let calls := [("ctx", asyncRequest); ("ctx", syncRequest)] in
  (serve handler calls w1).1
    = [(Some (dyn_CreateTaskResult brewTask), None);
       (Some (dyn_CreateTaskResult brewTask), None)]
  /\ (serve (taskToolHandler byRequest) calls w1).1
    = [(Some (dyn_CreateTaskResult brewTask), None);
       (Some (dyn_CallToolResult brewed), None)].
Proof.
  vm_compute. split; reflexivity.
Qed.

Lemma adaptor_transparent_for_immediate_witness :
  let '(handler, w1) :=
    NewTaskToolHandlerMiddlewareAdaptor (H := sentinels)
      (legacyMiddleware forward) (taskToolHandler alwaysBrewed) world0 in
  let w := (serve handler [("ctx", asyncRequest); ("ctx", syncRequest)] w1).2 in
  let direct := (alwaysBrewed "ctx" syncRequest (user w)).1 in
  (handler "ctx" syncRequest w).1 = direct
  /\ exists r, direct = (Some (dyn_CallToolResult r), None).
Proof.
  apply (adaptor_transparent_for_immediate (H := sentinels)
           (fun _ _ u => u) (fun _ _ _ u => u) alwaysBrewed world0
           [("ctx", asyncRequest); ("ctx", syncRequest)] "ctx" syncRequest).
  intros ctx request u. exists brewed. reflexivity.
Defined.

End MiddlewareAdaptorExamples.

(** ** The after-hook adaptor *)
Section Hooks.
Import context mcp exec server.
Context {U : Type}.

(** C5. Given a task handle, the adapted after-hook does not run the legacy
    after-call hook: the world, trace included, is left as it was. Given an
    immediate result, it runs the legacy after-call hook exactly once, on
    that result. *)
Theorem after_hook_only_for_immediate (hooks : Hooks U) (ctx : Context) (id : any)
    (message : option CallToolRequest) (w : World U) :
  (forall t : CreateTaskResult,
     NewTaskToolAfterHookAdaptor hooks ctx id message (Some (dyn_CreateTaskResult t)) w
     = (tt, w))
  /\ (forall r : CallToolResult,
        NewTaskToolAfterHookAdaptor hooks ctx id message (Some (dyn_CallToolResult r)) w
        = (tt, mkWorld (OnAfterCallTool hooks ctx id message (Some r) (user w))
                       (trace w ++ [EvAfterCallTool ctx id message (Some r)])
                       (heap w))).
Proof.
  split; intros; reflexivity.
Qed.

End Hooks.

(** ** The typed handler binder *)
Section Binder.
Import context mcp exec typed.
Context {U T : Type}.

(** C6. When the arguments of a request fail to bind, both typed wrappers
    return, with a nil error, an error-flagged immediate result whose text
    is the binding failure, and leave the world as it was: the wrapped
    handler is not run (a run would show in the trace). *)
Theorem binding_failure_is_returned (zero : T)
    (BindArguments : CallToolRequest -> T -> T * option error)
    (h : Context -> CallToolRequest -> T -> U -> (option AnyToolResult * option error) * U)
    (h' : Context -> CallToolRequest -> T -> U -> (option CallToolResult * option error) * U)
    (ctx : Context) (request : CallToolRequest) (e : error) (w : World U) :
  (BindArguments request zero).2 = Some e ->
  let failure := NewToolResultError ("failed to bind arguments: " +:+ Error e) in
  NewTypedTaskToolHandler zero BindArguments (typedTaskToolHandler h) ctx request w
    = ((Some (dyn_CallToolResult failure), None), w)
  /\ NewTypedToolHandler zero BindArguments (typedToolHandler h') ctx request w
    = ((Some failure, None), w)
  /\ IsError failure = true
  /\ CallToolResult_Content failure
     = [TextContent ("failed to bind arguments: " +:+ Error e)].
Proof.
  intros Hbind failure.
  unfold NewTypedTaskToolHandler, NewTypedToolHandler.
  destruct (BindArguments request zero) as [args err]. simpl in Hbind. subst err.
  repeat split.
Qed.

End Binder.

Section BinderExamples.
Import context mcp exec typed scenarios.

Lemma binding_failure_is_returned_witness :
  let failure := NewToolResultError "failed to bind arguments: cannot bind string to int" in
  NewTypedTaskToolHandler 0%Z bindShots (typedTaskToolHandler pullShots)
      "ctx" syncRequest world0
    = ((Some (dyn_CallToolResult failure), None), world0)
  /\ NewTypedToolHandler 0%Z bindShots (typedToolHandler pullShotsSync)
      "ctx" syncRequest world0
    = ((Some failure, None), world0)
  /\ IsError failure = true
  /\ CallToolResult_Content failure
     = [TextContent "failed to bind arguments: cannot bind string to int"].
Proof.
  apply (binding_failure_is_returned 0%Z bindShots pullShots pullShotsSync
           "ctx" syncRequest (errorString "cannot bind string to int") world0).
  reflexivity.
Defined.

End BinderExamples.

(** ** The espresso example *)
Section EspressoHandler.
Import context mcp espresso notions.
Context {float64 : Type}.

(** C9. For a request without roast, [espressoHandler] creates a task whose
    TTL option is one hour (in nanoseconds, as [time.Hour] is), calls
    [FailTask] once for that task with the error "recipient is required",
    spawns no worker, and returns the handle of the created task; it returns
    an error only when [FailTask] does, and then that error. *)
Theorem espressoHandler_missing_roast (mcpServer : Env float64)
    (ctx : Context) (request : CallToolRequest) (args : EspressoArgs float64)
    (tr : list (Effect float64)) :
  Roast args = "" ->
  let opts := [WithTaskTTL (3600 * 1000000000)] in
  let '(taskCtx, taskId, result) := onCreateTask mcpServer tr ctx opts in
  let failure := errorString "recipient is required" in
  let tr1 := tr ++ [CreateTask ctx opts] in
  espressoHandler mcpServer ctx request args tr
  = (Returned
       match onFailTask mcpServer tr1 ctx taskId failure with
       | Some err => (None, Some err)
       | None => (Some (dyn_CreateTaskResult result), None)
       end,
     tr1 ++ [FailTask ctx taskId failure]).
Proof.
  intros Hroast. unfold espressoHandler, bind, perform. cbv zeta.
  change (wrap64 (1 * time_Hour)) with (3600 * 1000000000)%Z.
  destruct (onCreateTask mcpServer tr ctx [WithTaskTTL (3600 * 1000000000)])
    as [[taskCtx taskId] result].
  rewrite Hroast.
  case_decide; [|congruence]. cbn beta iota.
  destruct (onFailTask mcpServer _ ctx taskId _); reflexivity.
Qed.

(** X26. On a declined elicitation the recipient named in the completion text is
    the one read from the answer, never the default set just before: the
    assignment of line 163 always overwrites it. *)
Lemma makeEspresso_decline_overwrites (warmup : float64 -> Z) (mcpServer : Env float64)
    (ctx : Context) (args : EspressoArgs float64) (taskId : string)
    (tr : list (Effect float64)) (content : any) :
  Recipient args = "" ->
  (forall tr', onSelect mcpServer tr' ctx (20 * time_Second) = false) ->
  (forall tr', onRequestInput mcpServer tr' ctx taskId elicitCustomerName
               = (Some (mkElicitationResult ElicitationResponseActionDecline content), None)) ->
  completedTexts (makeEspresso warmup mcpServer ctx args taskId tr).2
  = completedTexts tr
    ++ [[TextContent (pretty (Shots args) +:+ " shots of " +:+ Roast args +:+ " for "
                      +:+ customerNameOf content +:+ "!")]].
Proof.
  intros Hrecipient Hselect Hinput.
  unfold makeEspresso, failAndLog, bind, perform, Fatalf, ret.
  rewrite Hselect, Hrecipient.
  case_decide; [|congruence]. cbn beta iota.
  rewrite Hinput. cbn [Action ElicitationResult_Content withRecipient Roast Recipient Shots
                       Temperature Preinfusion].
  unfold completedTexts, customerNameOf.
  destruct content as [| s | n | b | l | m | ty]; cbn beta iota zeta;
    rewrite ?lookup_empty;
    try (destruct (m !! "customerName") as [[]|]);
    cbn beta iota zeta;
    destruct (Preinfusion args);
    match goal with |- context [onCompleteTask ?a ?b ?c ?d ?e] =>
      destruct (onCompleteTask a b c d e) end;
    cbn [snd];
    rewrite ?omap_app; cbn [omap list_omap];
    rewrite ?app_nil_r;
    cbn [CallToolResult_Content NewTextContent withRecipient Recipient Roast Shots];
    reflexivity.
Qed.


End EspressoHandler.

Section EspressoExamples.
Import context mcp espresso notions scenarios.

Lemma espressoHandler_missing_roast_witness :
  espressoHandler decliningCustomer "ctx" syncRequest noRoast []
  = (Returned (Some (dyn_CreateTaskResult brewTask), None),
     [CreateTask "ctx" [WithTaskTTL 3600000000000];
      FailTask "ctx" "task-1" (errorString "recipient is required")]).
Proof.
  apply (espressoHandler_missing_roast decliningCustomer "ctx" syncRequest noRoast []).
  reflexivity.
Defined.

(** C4 fails on the code. The customer declines to give a name: the worker
    sets the default recipient, then goes on to read the (absent) answer,
    reports three failures through [FailTask], overwrites the recipient with
    the empty string, and completes the task with a text that does not
    contain the default. *)
Theorem makeEspresso_decline_loses_default :
  let '(outcome, tr) :=
    makeEspresso (fun _ => 30%Z) decliningCustomer "task-ctx" darkDouble "task-1" [] in
  outcome = Returned tt
  /\ failTaskErrors tr
     = [errorString "unexpected input result type: expected map[string]any, got <nil>";
        errorString "unexpected input result type: expected map[string]any, got <nil>";
        errorString "unexpected input result type: expected string, got <nil>"]
  /\ completedTexts tr = [[TextContent "2 shots of dark for !"]]
  /\ contains "2 shots of dark for !" "anonymous customer" = false.
Proof.
  vm_compute. repeat split.
Qed.

End EspressoExamples.

(** * Further properties of the adaptors *)

(** ** The forward adaptor and the shape of what the adaptors return *)
Section AdaptorOutputs.
Import context mcp exec server notions.
Context `{Sentinels} {U : Type}.

(** X1. Whatever the synchronous handler does, the forward adaptor returns
    either an error and no result, or no error and an immediate result that
    passes [ValidateAnyToolResult]; it never returns a task handle. A handler
    that returns neither a result nor an error gets [ErrInvalidToolResult]. *)
Theorem NewTaskToolAdaptor_well_formed (handler : ToolHandlerFunc U)
    (ctx : Context) (request : CallToolRequest) (w : World U) :
  let inner := (handler ctx request w).1 in
  let out := (NewTaskToolAdaptor handler ctx request w).1 in
  (NewTaskToolAdaptor handler ctx request w).2 = (handler ctx request w).2
  /\ match inner with
     | (_, Some e) => out = (None, Some e)
     | (None, None) => out = (None, Some ErrInvalidToolResult)
     | (Some r, None) =>
         out = (Some (dyn_CallToolResult r), None)
         /\ ValidateAnyToolResult out.1 = None
     end.
Proof.
  unfold NewTaskToolAdaptor, bind. cbv zeta.
  destruct (handler ctx request w) as [[[r|] [e|]] w']; simpl; auto.
Qed.

(** X2. Whatever the legacy middleware and the inner handler do, the handler
    built by the middleware adaptor returns either an error and no result,
    or no error and a result that passes [ValidateAnyToolResult]. *)
Theorem adaptor_output_well_formed
    (targetMiddleware : ToolHandlerMiddleware U) (next : TaskToolHandlerFunc U)
    (w0 w : World U) (ctx : Context) (request : CallToolRequest) :
  let out :=
    ((NewTaskToolHandlerMiddlewareAdaptor targetMiddleware next w0).1 ctx request w).1 in
  (out.1 = None /\ exists e, out.2 = Some e)
  \/ (out.2 = None /\ ValidateAnyToolResult out.1 = None).
Proof.
  rewrite adaptor_unfold. cbv zeta. cbn [fst].
  destruct (targetMiddleware (syncShaped (length (heap w0)) next) ctx request w)
    as [[result err] w'] eqn:Hchain.
  rewrite (collect_outcome _ _ _ _ _ _ _ _ Hchain). cbn [fst snd].
  destruct err as [e|]; [left; eauto|].
  destruct (default None (heap w' !! length (heap w0))); [right; auto|].
  destruct result; [right; auto | left; eauto].
Qed.

(** A call of the adapted handler leaves the world as the adapted legacy
    chain left it. *)
Lemma collect_world (l : nat) (adapted : ToolHandlerFunc U)
    (ctx : Context) (request : CallToolRequest) (w : World U) :
  (collect l adapted ctx request w).2 = (adapted ctx request w).2.
Proof.
  destruct (adapted ctx request w) as [[result err] w'] eqn:E.
  rewrite (collect_outcome _ _ _ _ _ _ _ _ E). reflexivity.
Qed.

(** X3. A call through an adapted handler touches no cell but its own: every
    other location of the heap keeps its content, and no location is added
    or removed. So handlers built by different applications of the adaptor
    do not see each other's task handles. *)
Theorem adaptor_call_frame
    (body : Context -> CallToolRequest -> Legacy U) (h : UserTaskToolHandler U)
    (w0 w : World U) (ctx : Context) (request : CallToolRequest) (l' : nat) :
  l' <> length (heap w0) ->
  let w' :=
    ((NewTaskToolHandlerMiddlewareAdaptor (legacyMiddleware body) (taskToolHandler h) w0).1
       ctx request w).2 in
  heap w' !! l' = heap w !! l' /\ length (heap w') = length (heap w).
Proof.
  intros Hne. rewrite adaptor_unfold. cbv zeta. cbn [fst].
  rewrite collect_world.
  destruct (runLegacy_syncShaped (length (heap w0)) h (body ctx request) w)
    as (evs & _ & Hheap).
  unfold legacyMiddleware. rewrite Hheap.
  destruct (lastTaskHandle evs); [|auto].
  rewrite length_insert. split; [|reflexivity].
  apply list_lookup_insert_ne. auto.
Qed.

(** X4. A legacy middleware that answers by itself never runs the inner
    handler: the call adds nothing to the trace and leaves the heap, the
    cell included, as it was. *)
Theorem adaptor_silent_middleware
    (body : Context -> CallToolRequest -> Legacy U) (next : TaskToolHandlerFunc U)
    (w0 w : World U) (ctx : Context) (request : CallToolRequest) :
  silent (body ctx request) ->
  let w' :=
    ((NewTaskToolHandlerMiddlewareAdaptor (legacyMiddleware body) next w0).1
       ctx request w).2 in
  trace w' = trace w /\ heap w' = heap w.
Proof.
  intros Hsilent. rewrite adaptor_unfold. cbv zeta. cbn [fst].
  rewrite collect_world. unfold legacyMiddleware.
  generalize dependent w.
  induction Hsilent as [out | f k _ IH | k _ IH]; intros w; simpl.
  - auto.
  - unfold bind, modify; simpl. apply (IH (mkWorld (f (user w)) (trace w) (heap w))).
  - apply IH.
Qed.

End AdaptorOutputs.

(** ** Pass-through middleware around arbitrary inner handlers *)

(** Run one call through the adaptor around a pass-through middleware, given
    what the inner handler does at the time it is called. *)
Ltac run_pass_through Hnext :=
  rewrite adaptor_unfold; cbv zeta; cbn [fst];
  unfold notions.atCall in Hnext;
  cbv [server.collect exec.legacyMiddleware notions.passThrough exec.runLegacy
       server.syncShaped exec.bind exec.modify exec.load exec.store exec.ret];
  cbn [exec.user exec.trace exec.heap]; rewrite Hnext;
  cbn [exec.user exec.trace exec.heap].

Section PassThrough.
Import context mcp exec server notions.
Context `{Sentinels} {U : Type}.

(** X5. An error of the inner handler comes back as it is, with no result,
    through a pass-through middleware: neither a result the handler returned
    beside the error nor a task handle left in the cell replaces it. *)
Theorem adaptor_inner_error_propagates
    (before : Context -> CallToolRequest -> U -> U)
    (after : Context -> CallToolRequest -> option CallToolResult * option error -> U -> U)
    (next : TaskToolHandlerFunc U) (w0 w w2 : World U)
    (ctx : Context) (request : CallToolRequest)
    (r : option AnyToolResult) (e : error) :
  next ctx request (atCall before ctx request w) = ((r, Some e), w2) ->
  (NewTaskToolHandlerMiddlewareAdaptor
     (legacyMiddleware (passThrough before after)) next w0).1 ctx request w
  = ((None, Some e),
     mkWorld (after ctx request (None, Some e) (user w2)) (trace w2) (heap w2)).
Proof.
  intros Hnext. run_pass_through Hnext. reflexivity.
Qed.

(** X6. An inner result outside the result union (a nil pointer, an
    immediate result held by pointer, any other type) returned without error
    is not reported as [ErrInvalidToolResult]: with an empty cell the adapted
    handler returns the empty immediate result in its place. *)
Theorem adaptor_masks_invalid_result
    (before : Context -> CallToolRequest -> U -> U)
    (after : Context -> CallToolRequest -> option CallToolResult * option error -> U -> U)
    (next : TaskToolHandlerFunc U) (w0 w w2 : World U)
    (ctx : Context) (request : CallToolRequest) (r : option AnyToolResult) :
  next ctx request (atCall before ctx request w) = ((r, None), w2) ->
  ~ legalToolResult r ->
  heap w2 !! length (heap w0) = Some None ->
  (NewTaskToolHandlerMiddlewareAdaptor
     (legacyMiddleware (passThrough before after)) next w0).1 ctx request w
  = ((Some (dyn_CallToolResult emptyCallToolResult), None),
     mkWorld (after ctx request (Some emptyCallToolResult, None) (user w2))
             (trace w2) (heap w2)).
Proof.
  intros Hnext Hillegal Hcell. run_pass_through Hnext.
  destruct r as [v|]; [destruct v|]; cbn [user trace heap];
    try (rewrite Hcell; reflexivity);
    exfalso; apply Hillegal; unfold legalToolResult, isImmediateResult, isTaskHandle;
    eauto.
Qed.

(** One call of a forward-adapted synchronous handler through the adaptor
    around a pass-through middleware, made while the cell is empty. *)
Lemma passThrough_legacy_call
    (before : Context -> CallToolRequest -> U -> U)
    (after : Context -> CallToolRequest -> option CallToolResult * option error -> U -> U)
    (h : UserToolHandler U) (l : nat)
    (ctx : Context) (request : CallToolRequest) (w : World U) :
  heap w !! l = Some None ->
  let run := collect l (legacyMiddleware (passThrough before after)
                          (syncShaped l (NewTaskToolAdaptor (toolHandler h))))
               ctx request w in
  run.1 = (NewTaskToolAdaptor (toolHandler h) ctx request (atCall before ctx request w)).1
  /\ heap run.2 = heap w.
Proof.
  intros Hcell.
  cbv [collect legacyMiddleware passThrough runLegacy syncShaped NewTaskToolAdaptor
       toolHandler atCall bind modify load store ret].
  cbn [user trace heap].
  destruct (h ctx request (before ctx request (user w))) as [[[r|] [e|]] u'];
    cbn [user trace heap fst snd]; rewrite ?Hcell; auto.
Qed.

Lemma serve_invariant {A} (handler : Context -> CallToolRequest -> M U A)
    (P : World U -> Prop) :
  (forall ctx request w, P w -> P (handler ctx request w).2) ->
  forall calls w, P w -> P (serve handler calls w).2.
Proof.
  intros Hstep. induction calls as [|[ctx request] rest IH]; intros w Hw; [exact Hw|].
  simpl. unfold bind.
  specialize (Hstep ctx request w Hw).
  destruct (handler ctx request w) as [out w1]. cbn [snd] in Hstep.
  specialize (IH w1 Hstep).
  destruct (serve handler rest w1) as [outs w2]. exact IH.
Qed.

(** X7. A synchronous handler lifted by the forward adaptor and then wrapped
    by the middleware adaptor around a pass-through middleware answers every
    call, whatever calls were served before, as the forward adaptor alone
    does: results, handler errors and [ErrInvalidToolResult] for a missing
    result all come through unchanged. *)
Theorem adaptor_forward_round_trip
    (before : Context -> CallToolRequest -> U -> U)
    (after : Context -> CallToolRequest -> option CallToolResult * option error -> U -> U)
    (h : UserToolHandler U) (w0 : World U)
    (earlier : list (Context * CallToolRequest))
    (ctx : Context) (request : CallToolRequest) :
  let '(handler, w1) :=
    NewTaskToolHandlerMiddlewareAdaptor
      (legacyMiddleware (passThrough before after))
      (NewTaskToolAdaptor (toolHandler h)) w0 in
  let w := (serve handler earlier w1).2 in
  (handler ctx request w).1
  = (NewTaskToolAdaptor (toolHandler h) ctx request (atCall before ctx request w)).1.
Proof.
  rewrite adaptor_unfold. cbv zeta.
  set (l := length (heap w0)).
  set (w1 := mkWorld (user w0) (trace w0) (heap w0 ++ [None])).
  assert (Hcell : heap w1 !! l = Some None).
  { subst w1 l. simpl. apply list_lookup_middle. reflexivity. }
  apply passThrough_legacy_call.
  apply (serve_invariant _ (fun w => heap w !! l = Some None)); [|exact Hcell].
  intros c r w Hw.
  destruct (passThrough_legacy_call before after h l c r w Hw) as [_ ->].
  exact Hw.
Qed.

End PassThrough.

Section PassThroughExamples.
Import context mcp exec server notions scenarios.

Lemma adaptor_call_frame_witness :
  let w' :=
    ((NewTaskToolHandlerMiddlewareAdaptor (H := sentinels)
        (legacyMiddleware forward) (taskToolHandler byRequest) world2).1
       "ctx" asyncRequest world3).2 in
  heap w' !! 0 = heap world3 !! 0 /\ length (heap w') = length (heap world3).
Proof.
  apply (adaptor_call_frame (H := sentinels) forward byRequest world2 world3
           "ctx" asyncRequest 0).
  simpl. lia.
Defined.

Lemma adaptor_silent_middleware_witness :
  let w' :=
    ((NewTaskToolHandlerMiddlewareAdaptor (H := sentinels)
        (legacyMiddleware refuse) (taskToolHandler byRequest) world0).1
       "ctx" asyncRequest world1).2 in
  trace w' = trace world1 /\ heap w' = heap world1.
Proof.
  apply (adaptor_silent_middleware (H := sentinels) refuse (taskToolHandler byRequest)
           world0 world1 "ctx" asyncRequest).
  apply silent_Return.
Defined.

Lemma adaptor_inner_error_propagates_witness :
  (NewTaskToolHandlerMiddlewareAdaptor (H := sentinels)
     (legacyMiddleware forward) (taskToolHandler alwaysFails) world0).1
    "ctx" syncRequest world2
  = ((None, Some brokenGrinder),
     mkWorld tt (trace world2 ++ [EvTaskToolHandler "ctx" syncRequest (None, Some brokenGrinder)])
             (heap world2)).
Proof.
  apply (adaptor_inner_error_propagates (H := sentinels)
           (fun _ _ u => u) (fun _ _ _ u => u) (taskToolHandler alwaysFails)
           world0 world2
           (mkWorld tt (trace world2
                        ++ [EvTaskToolHandler "ctx" syncRequest (None, Some brokenGrinder)])
                    (heap world2))
           "ctx" syncRequest None brokenGrinder).
  reflexivity.
Defined.

Lemma adaptor_masks_invalid_result_witness :
  (NewTaskToolHandlerMiddlewareAdaptor (H := sentinels)
     (legacyMiddleware forward) (taskToolHandler byPointer) world0).1
    "ctx" syncRequest world1
  = ((Some (dyn_CallToolResult emptyCallToolResult), None),
     mkWorld tt [EvTaskToolHandler "ctx" syncRequest
                   (Some (dyn_CallToolResultPtr (Some brewed)), None)]
             [None]).
Proof.
  apply (adaptor_masks_invalid_result (H := sentinels)
           (fun _ _ u => u) (fun _ _ _ u => u) (taskToolHandler byPointer)
           world0 world1
           (mkWorld tt [EvTaskToolHandler "ctx" syncRequest
                          (Some (dyn_CallToolResultPtr (Some brewed)), None)]
                    [None])
           "ctx" syncRequest (Some (dyn_CallToolResultPtr (Some brewed)))).
  - reflexivity.
  - intros (v & Hv & [[r Hr]|[t Ht]]); congruence.
  - reflexivity.
Defined.

Lemma adaptor_returns_stale_task_witness :
  (NewTaskToolHandlerMiddlewareAdaptor (H := sentinels)
     (legacyMiddleware forward) (taskToolHandler byRequest) world0).1
    "ctx" syncRequest world2
  = ((Some (dyn_CreateTaskResult brewTask), None),
     mkWorld tt (trace world2
                 ++ [EvTaskToolHandler "ctx" syncRequest (Some (dyn_CallToolResult brewed), None)])
             (heap world2)).
Proof.
  apply (adaptor_returns_stale_task (H := sentinels) forward byRequest world0 world2
           (mkWorld tt (trace world2
                        ++ [EvTaskToolHandler "ctx" syncRequest
                              (Some (dyn_CallToolResult brewed), None)])
                    (heap world2))
           "ctx" syncRequest (Some brewed) brewTask).
  - reflexivity.
  - reflexivity.
  - reflexivity.
Defined.

End PassThroughExamples.

(** ** The after-hook adaptor on the remaining shapes *)
Section HooksOtherShapes.
Import context mcp exec server notions.
Context {U : Type}.

(** X8. The adapted after-hook runs the legacy hook for an immediate result
    held by value and for nothing else: for a nil result, an immediate
    result held by pointer or any other value, the world, trace included,
    is left as it was. *)
Theorem after_hook_skips_other_shapes (hooks : Hooks U) (ctx : Context) (id : any)
    (message : option CallToolRequest) (result : option AnyToolResult) (w : World U) :
  (forall r, result <> Some (dyn_CallToolResult r)) ->
  NewTaskToolAfterHookAdaptor hooks ctx id message result w = (tt, w).
Proof.
  intros Hother. destruct result as [v|]; [destruct v|]; try reflexivity.
  exfalso. eapply Hother. reflexivity.
Qed.

End HooksOtherShapes.

(** ** Typed and structured handlers *)
Section TypedHandlers.
Import context mcp exec server typed structured notions.
Context `{Sentinels} {U T TResult : Type}.
Variable zero : T.
Variable BindArguments : CallToolRequest -> T -> T * option error.
Variable NewToolResultStructuredOnly : TResult -> option CallToolResult.

(** X9. Binding the arguments and lifting to the result union commute: the
    forward adaptor over a typed synchronous handler is the typed task
    handler over the forward-adapted handler, on binding failure as on
    success. *)
Theorem typed_forward_commute (handler : TypedToolHandlerFunc (U := U) (T := T))
    (ctx : Context) (request : CallToolRequest) (w : World U) :
  NewTaskToolAdaptor (NewTypedToolHandler zero BindArguments handler) ctx request w
  = NewTypedTaskToolHandler zero BindArguments
      (fun c r args => NewTaskToolAdaptor (fun c' r' => handler c' r' args) c r)
      ctx request w.
Proof.
  unfold NewTaskToolAdaptor, NewTypedToolHandler, NewTypedTaskToolHandler, bind.
  destruct (BindArguments request zero) as [args [e|]]; reflexivity.
Qed.

(** X10. The structured wrappers never return an error: whatever the binder
    and the wrapped handler do, the error they return is nil, and the task
    variant returns a non-nil result. *)
Theorem structured_never_raises
    (handler : StructuredToolHandlerFunc (U := U) (TArgs := T) (TResult := TResult))
    (ctx : Context) (request : CallToolRequest) (w : World U) :
  (NewStructuredToolHandler zero BindArguments NewToolResultStructuredOnly handler
     ctx request w).1.2 = None
  /\ (NewStructuredTaskToolHandler zero BindArguments NewToolResultStructuredOnly handler
        ctx request w).1.2 = None
  /\ exists v,
       (NewStructuredTaskToolHandler zero BindArguments NewToolResultStructuredOnly handler
          ctx request w).1.1 = Some v.
Proof.
  unfold NewStructuredToolHandler, NewStructuredTaskToolHandler, bind.
  destruct (BindArguments request zero) as [args [e|]]; [simpl; eauto|].
  destruct (handler ctx request args w) as [[result [e|]] w2]; simpl; eauto.
Qed.

(** X11. When the arguments bind and the wrapped handler fails, both
    structured wrappers return, with a nil error, the error-flagged immediate
    result "tool execution failed: ..." carrying the handler's error text;
    the task variant's result passes [ValidateAnyToolResult]. *)
Theorem structured_handler_failure
    (handler : StructuredToolHandlerFunc (U := U) (TArgs := T) (TResult := TResult))
    (ctx : Context) (request : CallToolRequest) (w w2 : World U)
    (args : T) (result : TResult) (e : error) :
  BindArguments request zero = (args, None) ->
  handler ctx request args w = ((result, Some e), w2) ->
  let failure := NewToolResultError ("tool execution failed: " +:+ Error e) in
  NewStructuredToolHandler zero BindArguments NewToolResultStructuredOnly handler
    ctx request w = ((Some failure, None), w2)
  /\ NewStructuredTaskToolHandler zero BindArguments NewToolResultStructuredOnly handler
       ctx request w = ((Some (dyn_CallToolResult failure), None), w2)
  /\ ValidateAnyToolResult (Some (dyn_CallToolResult failure)) = None.
Proof.
  intros Hbind Hrun failure.
  unfold NewStructuredToolHandler, NewStructuredTaskToolHandler, bind.
  rewrite Hbind, Hrun. auto.
Qed.

(** X12. When the arguments bind and the wrapped handler succeeds, the task
    variant returns the structured result held by pointer, where the
    synchronous variant returns the pointer itself. The pointer is not a case
    of the result union: [ValidateAnyToolResult] answers
    [ErrInvalidToolResult] on the task variant's successful result. *)
Theorem structured_task_success_shape
    (handler : StructuredToolHandlerFunc (U := U) (TArgs := T) (TResult := TResult))
    (ctx : Context) (request : CallToolRequest) (w w2 : World U)
    (args : T) (result : TResult) :
  BindArguments request zero = (args, None) ->
  handler ctx request args w = ((result, None), w2) ->
  let out :=
    NewStructuredTaskToolHandler zero BindArguments NewToolResultStructuredOnly handler
      ctx request w in
  NewStructuredToolHandler zero BindArguments NewToolResultStructuredOnly handler
    ctx request w = ((NewToolResultStructuredOnly result, None), w2)
  /\ out = ((Some (dyn_CallToolResultPtr (NewToolResultStructuredOnly result)), None), w2)
  /\ ValidateAnyToolResult out.1.1 = Some ErrInvalidToolResult.
Proof.
  intros Hbind Hrun.
  unfold NewStructuredToolHandler, NewStructuredTaskToolHandler, bind.
  rewrite Hbind, Hrun. auto.
Qed.

(** X13. Hence the structured result does not survive the middleware
    adaptor: behind a pass-through middleware, with an empty cell, a
    successful structured task handler is answered with the empty immediate
    result. *)
Theorem adaptor_drops_structured_result
    (before : Context -> CallToolRequest -> U -> U)
    (after : Context -> CallToolRequest -> option CallToolResult * option error -> U -> U)
    (h : Context -> CallToolRequest -> T -> U -> (TResult * option error) * U)
    (w0 w : World U) (ctx : Context) (request : CallToolRequest)
    (args : T) (result : TResult) (u2 : U) :
  BindArguments request zero = (args, None) ->
  h ctx request args (before ctx request (user w)) = ((result, None), u2) ->
  heap w !! length (heap w0) = Some None ->
  (NewTaskToolHandlerMiddlewareAdaptor
     (legacyMiddleware (passThrough before after))
     (NewStructuredTaskToolHandler zero BindArguments NewToolResultStructuredOnly
        (structuredHandler h)) w0).1 ctx request w
  = ((Some (dyn_CallToolResult emptyCallToolResult), None),
     mkWorld (after ctx request (Some emptyCallToolResult, None) u2) (trace w) (heap w)).
Proof.
  intros Hbind Hrun Hcell.
  assert (Hnext :
    NewStructuredTaskToolHandler zero BindArguments NewToolResultStructuredOnly
      (structuredHandler h) ctx request (atCall before ctx request w)
    = ((Some (dyn_CallToolResultPtr (NewToolResultStructuredOnly result)), None),
       mkWorld u2 (trace w) (heap w))).
  { unfold NewStructuredTaskToolHandler, structuredHandler, atCall, bind.
    rewrite Hbind. cbn [user trace heap]. rewrite Hrun. reflexivity. }
  run_pass_through Hnext. rewrite Hcell. reflexivity.
Qed.

End TypedHandlers.

Section TypedHandlersExamples.
Import context mcp exec server typed structured notions scenarios.

Lemma after_hook_skips_other_shapes_witness :
  NewTaskToolAfterHookAdaptor
    (mkHooks unit (fun _ _ _ u => u) (fun _ _ _ _ u => u))
    "ctx" (any_int 7) (Some syncRequest)
    (Some (dyn_CallToolResultPtr (Some brewed))) world0
  = (tt, world0).
Proof.
  apply (after_hook_skips_other_shapes
           (mkHooks unit (fun _ _ _ u => u) (fun _ _ _ _ u => u))
           "ctx" (any_int 7) (Some syncRequest)
           (Some (dyn_CallToolResultPtr (Some brewed))) world0).
  intros r. discriminate.
Defined.

Lemma structured_handler_failure_witness :
  let failure := NewToolResultError "tool execution failed: grinder jammed" in
  NewStructuredToolHandler 0%Z bindShots shotsResult (structuredHandler jammed)
    "ctx" tripleRequest world0 = ((Some failure, None), world0)
  /\ NewStructuredTaskToolHandler 0%Z bindShots shotsResult (structuredHandler jammed)
       "ctx" tripleRequest world0 = ((Some (dyn_CallToolResult failure), None), world0)
  /\ ValidateAnyToolResult (H := sentinels) (Some (dyn_CallToolResult failure)) = None.
Proof.
  apply (structured_handler_failure (H := sentinels) 0%Z bindShots shotsResult
           (structuredHandler jammed) "ctx" tripleRequest world0 world0
           3%Z 0%Z brokenGrinder); reflexivity.
Defined.

Lemma structured_task_success_shape_witness :
  let out :=
    NewStructuredTaskToolHandler 0%Z bindShots shotsResult (structuredHandler countShots)
      "ctx" tripleRequest world0 in
  NewStructuredToolHandler 0%Z bindShots shotsResult (structuredHandler countShots)
    "ctx" tripleRequest world0 = ((shotsResult 3, None), world0)
  /\ out = ((Some (dyn_CallToolResultPtr (shotsResult 3)), None), world0)
  /\ ValidateAnyToolResult (H := sentinels) out.1.1
     = Some (@ErrInvalidToolResult sentinels).
Proof.
  apply (structured_task_success_shape (H := sentinels) 0%Z bindShots shotsResult
           (structuredHandler countShots) "ctx" tripleRequest world0 world0
           3%Z 3%Z); reflexivity.
Defined.

Lemma adaptor_drops_structured_result_witness :
  (NewTaskToolHandlerMiddlewareAdaptor (H := sentinels)
     (legacyMiddleware forward)
     (NewStructuredTaskToolHandler 0%Z bindShots shotsResult (structuredHandler countShots))
     world0).1 "ctx" tripleRequest world1
  = ((Some (dyn_CallToolResult emptyCallToolResult), None), world1).
Proof.
  apply (adaptor_drops_structured_result (H := sentinels) 0%Z bindShots shotsResult
           (fun _ _ u => u) (fun _ _ _ u => u) countShots world0 world1
           "ctx" tripleRequest 3%Z 3%Z tt); reflexivity.
Defined.

End TypedHandlersExamples.

(** ** Tool collections *)
Section ToolCollections.
Import tools.
Context {ServerTool ServerTaskTool ToolTaskSupport : Type} `{EqDecision ToolTaskSupport}.
Variable ToTaskTool : ServerTool -> ServerTaskTool.
Variable TaskSupport : ServerTaskTool -> ToolTaskSupport.
Variables ToolTaskSupportOptional ToolTaskSupportRequired : ToolTaskSupport.

Lemma AdaptTools_loop (tools : list ServerTool) (taskTools : list ServerTaskTool) :
  fold_left (fun acc tool => acc ++ [ToTaskTool tool]) tools taskTools
  = taskTools ++ map ToTaskTool tools.
Proof.
  revert taskTools. induction tools as [|tool rest IH]; intros taskTools; simpl.
  - rewrite app_nil_r. reflexivity.
  - rewrite IH, <- app_assoc. reflexivity.
Qed.

(** X14. [AdaptTools] keeps the number and the order of the tools: the tool
    at each position of the result is the task tool of the tool at that
    position of the input, and there is none beyond the last. *)
Theorem AdaptTools_keeps_order (tools : list ServerTool) :
  length (AdaptTools ToTaskTool tools) = length tools
  /\ forall i : nat, AdaptTools ToTaskTool tools !! i = ToTaskTool <$> tools !! i.
Proof.
  unfold AdaptTools. rewrite AdaptTools_loop. simpl. split.
  - apply length_map.
  - intros i. apply list_lookup_fmap.
Qed.

Lemma IndexFunc_from_found {A} (s : list A) (f : A -> bool) :
  forall i : Z, (0 <= i)%Z -> (0 <=? IndexFunc_from i s f)%Z = existsb f s.
Proof.
  induction s as [|x rest IH]; intros i Hi; simpl.
  - reflexivity.
  - destruct (f x); simpl.
    + apply Z.leb_le. exact Hi.
    + apply IH. lia.
Qed.

(** X15. [containTaskAugmented] answers true exactly when some tool of the
    collection declares optional or required task support; in particular it
    answers false on the empty collection. *)
Theorem containTaskAugmented_iff (tools : list ServerTaskTool) :
  containTaskAugmented TaskSupport ToolTaskSupportOptional ToolTaskSupportRequired tools = true
  <-> exists tool, tool ∈ tools
        /\ (TaskSupport tool = ToolTaskSupportOptional
            \/ TaskSupport tool = ToolTaskSupportRequired).
Proof.
  unfold containTaskAugmented, slices_IndexFunc.
  rewrite IndexFunc_from_found by lia.
  rewrite existsb_exists. split.
  - intros (tool & Hin & Hsupport). exists tool. split; [apply list_elem_of_In; exact Hin|].
    apply orb_true_iff in Hsupport as [Ho|Hr]; [left|right];
      eapply bool_decide_eq_true_1; eassumption.
  - intros (tool & Hin & Hsupport). exists tool. split; [apply list_elem_of_In; exact Hin|].
    apply orb_true_iff. destruct Hsupport as [Ho|Hr]; [left|right];
      apply bool_decide_eq_true_2; assumption.
Qed.

(** X16. Over a collection put together from two, [containTaskAugmented]
    is the disjunction of its answers on the parts. *)
Theorem containTaskAugmented_app (tools more : list ServerTaskTool) :
  containTaskAugmented TaskSupport ToolTaskSupportOptional ToolTaskSupportRequired
    (tools ++ more)
  = containTaskAugmented TaskSupport ToolTaskSupportOptional ToolTaskSupportRequired tools
    || containTaskAugmented TaskSupport ToolTaskSupportOptional ToolTaskSupportRequired more.
Proof.
  unfold containTaskAugmented, slices_IndexFunc.
  rewrite !IndexFunc_from_found by lia.
  apply existsb_app.
Qed.

End ToolCollections.


(** ** The espresso handler and worker on their other paths *)
Section EspressoPaths.
Import context mcp espresso notions.
Context {float64 : Type}.
Variable warmup : float64 -> Z.
Variable mcpServer : Env float64.

Ltac run_worker :=
  unfold makeEspresso, failAndLog, bind, perform, Fatalf, ret, warmUp,
    pullTime, espressoPayload, NewTextContent;
  rewrite <- ?app_assoc; cbn [app].

(** X17. With a roast, [espressoHandler] creates the task, hands the order to
    one worker together with the task's own context and identifier, and
    returns the task's handle with a nil error; it calls no other operation
    of the task manager. *)
Theorem espressoHandler_spawns_worker (ctx : Context) (request : CallToolRequest)
    (args : EspressoArgs float64) (tr : list (Effect float64)) :
  Roast args <> "" ->
  let opts := [WithTaskTTL (3600 * 1000000000)] in
  let '(taskCtx, taskId, result) := onCreateTask mcpServer tr ctx opts in
  espressoHandler mcpServer ctx request args tr
  = (Returned (Some (dyn_CreateTaskResult result), None),
     tr ++ [CreateTask ctx opts; Spawn taskCtx args taskId]).
Proof.
  intros Hroast. unfold espressoHandler, bind, perform. cbv zeta.
  change (wrap64 (1 * time_Hour)) with (3600 * 1000000000)%Z.
  destruct (onCreateTask mcpServer tr ctx [WithTaskTTL (3600 * 1000000000)])
    as [[taskCtx taskId] result].
  case_decide; [congruence|]. cbn beta iota.
  rewrite <- app_assoc. reflexivity.
Qed.

(** X18. When the task's context is done before the timer at the end of the
    warm-up, the worker returns at once: it calls no operation of the task
    manager. *)
Theorem makeEspresso_cancelled_in_warm_up (ctx : Context)
    (args : EspressoArgs float64) (taskId : string) (tr : list (Effect float64)) :
  onSelect mcpServer
    (tr ++ [Sleep (wrap64 (time_Second * warmup (Temperature args)))])
    ctx (20 * time_Second) = true ->
  makeEspresso warmup mcpServer ctx args taskId tr
  = (Returned tt, tr ++ warmUp warmup ctx args).
Proof.
  intros Hdone. run_worker. rewrite Hdone. reflexivity.
Qed.

(** X19. For an order that names its recipient the worker asks nothing: after
    the warm-up it pulls the shot (35 s, and 10 ns more with preinfusion) and
    submits the text naming the recipient. If [CompleteTask] fails, it
    reports that error once through [FailTask] and the process exits. *)
Theorem makeEspresso_named_recipient (ctx : Context)
    (args : EspressoArgs float64) (taskId : string) (tr : list (Effect float64)) :
  Recipient args <> "" ->
  onSelect mcpServer
    (tr ++ [Sleep (wrap64 (time_Second * warmup (Temperature args)))])
    ctx (20 * time_Second) = false ->
  let payload := espressoPayload args (Recipient args) in
  let tr3 := tr ++ warmUp warmup ctx args ++ [Sleep (pullTime args)] in
  makeEspresso warmup mcpServer ctx args taskId tr
  = match onCompleteTask mcpServer tr3 ctx taskId payload with
    | None => (Returned tt, tr3 ++ [CompleteTask ctx taskId payload])
    | Some e =>
        let msg :=
          "error: unable to complete task: "
          +:+ fmt_s (errors_Join
                       [Some e;
                        onFailTask mcpServer (tr3 ++ [CompleteTask ctx taskId payload])
                          ctx taskId e]) in
        (Exited msg,
         tr3 ++ [CompleteTask ctx taskId payload; FailTask ctx taskId e; Printf msg])
    end.
Proof.
  intros Hrecipient Hselect. run_worker. rewrite Hselect.
  case_decide; [congruence|]. cbn beta iota zeta.
  destruct (Preinfusion args); cbn beta iota;
    change (wrap64 (time_Second * 35 + 10)) with 35000000010%Z;
    change (time_Second * 35)%Z with 35000000000%Z;
    rewrite <- ?app_assoc; cbn [app];
    match goal with |- context [onCompleteTask ?a ?b ?c ?d ?e] =>
      destruct (onCompleteTask a b c d e) end;
    cbn beta iota zeta; rewrite <- ?app_assoc; reflexivity.
Qed.

(** X20. When the customer cancels the elicitation the worker calls
    [CancelTask] once and stops, whether or not [CancelTask] succeeds (a
    failure is only logged): it neither pulls the shot nor calls
    [CompleteTask] or [FailTask]. *)
Theorem makeEspresso_elicitation_cancelled (ctx : Context)
    (args : EspressoArgs float64) (taskId : string) (tr : list (Effect float64))
    (content : any) :
  Recipient args = "" ->
  onSelect mcpServer
    (tr ++ [Sleep (wrap64 (time_Second * warmup (Temperature args)))])
    ctx (20 * time_Second) = false ->
  onRequestInput mcpServer (tr ++ warmUp warmup ctx args) ctx taskId elicitCustomerName
    = (Some (mkElicitationResult ElicitationResponseActionCancel content), None) ->
  let asked := tr ++ warmUp warmup ctx args ++ [RequestInput ctx taskId elicitCustomerName] in
  makeEspresso warmup mcpServer ctx args taskId tr
  = (Returned tt,
     asked ++ CancelTask ctx taskId
              :: match onCancelTask mcpServer asked ctx taskId with
                 | Some e => [Printf ("warn: unable to cancel task: " +:+ Error e)]
                 | None => []
                 end).
Proof.
  intros Hrecipient Hselect Hinput. run_worker. unfold warmUp in Hinput.
  rewrite Hselect. case_decide; [|congruence]. cbn beta iota.
  rewrite Hinput. cbn beta iota zeta. cbn [Action].
  rewrite <- ?app_assoc; cbn [app].
  destruct (onCancelTask mcpServer _ ctx taskId); cbn beta iota;
    rewrite <- ?app_assoc; reflexivity.
Qed.

(** X21. When [RequestInput] fails the worker reports that error once
    through [FailTask] and the process exits; nothing is pulled and
    [CompleteTask] is not called. *)
Theorem makeEspresso_input_error (ctx : Context)
    (args : EspressoArgs float64) (taskId : string) (tr : list (Effect float64))
    (result : option ElicitationResult) (e : error) :
  Recipient args = "" ->
  onSelect mcpServer
    (tr ++ [Sleep (wrap64 (time_Second * warmup (Temperature args)))])
    ctx (20 * time_Second) = false ->
  onRequestInput mcpServer (tr ++ warmUp warmup ctx args) ctx taskId elicitCustomerName
    = (result, Some e) ->
  let asked := tr ++ warmUp warmup ctx args ++ [RequestInput ctx taskId elicitCustomerName] in
  let msg :=
    "error: something went wrong requesting input: "
    +:+ fmt_s (errors_Join [Some e; onFailTask mcpServer asked ctx taskId e]) in
  makeEspresso warmup mcpServer ctx args taskId tr
  = (Exited msg, asked ++ [FailTask ctx taskId e; Printf msg]).
Proof.
  intros Hrecipient Hselect Hinput. run_worker. unfold warmUp in Hinput.
  rewrite Hselect. case_decide; [|congruence]. cbn beta iota.
  rewrite Hinput. cbn beta iota zeta.
  rewrite <- ?app_assoc. reflexivity.
Qed.

(** X22. When the customer answers, by accepting or by declining, with a map
    that holds a string under "customerName", the worker reports no
    failure, pulls the shot and submits the text naming that customer. *)
Theorem makeEspresso_named_by_customer (ctx : Context)
    (args : EspressoArgs float64) (taskId : string) (tr : list (Effect float64))
    (action : ElicitationResponseAction) (m : gmap string any) (name : string) :
  Recipient args = "" ->
  action <> ElicitationResponseActionCancel ->
  m !! "customerName" = Some (any_string name) ->
  onSelect mcpServer
    (tr ++ [Sleep (wrap64 (time_Second * warmup (Temperature args)))])
    ctx (20 * time_Second) = false ->
  onRequestInput mcpServer (tr ++ warmUp warmup ctx args) ctx taskId elicitCustomerName
    = (Some (mkElicitationResult action (any_map m)), None) ->
  let payload := espressoPayload args name in
  let pulled :=
    tr ++ warmUp warmup ctx args
       ++ [RequestInput ctx taskId elicitCustomerName; Sleep (pullTime args)] in
  onCompleteTask mcpServer pulled ctx taskId payload = None ->
  makeEspresso warmup mcpServer ctx args taskId tr
  = (Returned tt, pulled ++ [CompleteTask ctx taskId payload]).
Proof.
  intros Hrecipient Haction Hname Hselect Hinput payload pulled Hcomplete.
  subst payload pulled. revert Hcomplete. run_worker. unfold warmUp in Hinput.
  intros Hcomplete.
  rewrite Hselect. case_decide; [|congruence]. cbn beta iota.
  rewrite Hinput. cbn beta iota zeta.
  cbn [Action ElicitationResult_Content].
  destruct action; [| |congruence]; cbn beta iota zeta; rewrite Hname;
    cbn beta iota zeta;
    cbn [withRecipient Roast Recipient Shots Temperature Preinfusion];
    (destruct (Preinfusion args); cbn beta iota;
     change (wrap64 (time_Second * 35 + 10)) with 35000000010%Z;
     change (time_Second * 35)%Z with 35000000000%Z;
     rewrite <- ?app_assoc; cbn [app];
     cbn beta iota in Hcomplete; rewrite Hcomplete; cbn beta iota;
     rewrite <- ?app_assoc; reflexivity).
Qed.



(** How the bound composes along the worker's steps. *)
Lemma completesAtMost_ret {A} (a : A) (n : nat) :
  completesAtMost (ret float64 a) n.
Proof. intros tr. simpl. split; [lia | reflexivity]. Qed.

Lemma completesAtMost_panic {A} (n : nat) :
  completesAtMost (@panic float64 A) n.
Proof. intros tr. simpl. split; [lia | reflexivity]. Qed.

Lemma completesAtMost_Fatalf {A} (msg : string) (n : nat) :
  completesAtMost (@Fatalf float64 A msg) n.
Proof.
  intros tr. unfold Fatalf, completeTaskCalls, startCalls. cbn [snd].
  rewrite !omap_app, !length_app. simpl. split; lia.
Qed.

Lemma completesAtMost_perform {A} (e : Effect float64) (answer : list (Effect float64) -> A)
    (n : nat) :
  counted e = false -> completesAtMost (perform float64 e answer) n.
Proof.
  intros He tr. unfold perform, completeTaskCalls, startCalls. cbn [snd].
  rewrite !omap_app, !length_app.
  destruct e; try discriminate He; simpl; split; lia.
Qed.

Lemma completesAtMost_CompleteTask {A} (ctx : Context) (taskId : string)
    (result : option TaskPayloadResult) (answer : list (Effect float64) -> A) :
  completesAtMost (perform float64 (CompleteTask ctx taskId result) answer) 1.
Proof.
  intros tr. unfold perform, completeTaskCalls, startCalls. cbn [snd].
  rewrite !omap_app, !length_app. simpl. split; lia.
Qed.

Lemma completesAtMost_bind {A B} (m : E float64 A) (k : A -> E float64 B) (a b : nat) :
  completesAtMost m a ->
  (forall x, completesAtMost (k x) b) ->
  completesAtMost (bind float64 m k) (a + b).
Proof.
  intros Hm Hk tr. unfold bind.
  destruct (Hm tr) as [Hc Hs].
  destruct (m tr) as [[x | msg |] tr1]; cbn [snd] in *.
  - destruct (Hk x tr1) as [Hc' Hs']. split; [lia | congruence].
  - split; [lia | exact Hs].
  - split; [lia | exact Hs].
Qed.

Ltac bound_worker :=
  lazymatch goal with
  | |- completesAtMost (bind _ (perform _ (CompleteTask _ _ _) _) _) _ =>
      apply (completesAtMost_bind _ _ 1 0);
      [apply completesAtMost_CompleteTask | intros; bound_worker]
  | |- completesAtMost (bind _ _ _) ?n =>
      apply (completesAtMost_bind _ _ 0 n); [bound_worker | intros; bound_worker]
  | |- completesAtMost (perform _ _ _) _ => apply completesAtMost_perform; reflexivity
  | |- completesAtMost (ret _ _) _ => apply completesAtMost_ret
  | |- completesAtMost (Fatalf _ _) _ => apply completesAtMost_Fatalf
  | |- completesAtMost (panic _) _ => apply completesAtMost_panic
  | |- completesAtMost (match ?x with _ => _ end) _ => destruct x; bound_worker
  | |- completesAtMost (let x := _ in _) _ => cbv zeta; bound_worker
  end.

(** X24. Whatever the task manager and the customer answer, one run of the
    worker calls [CompleteTask] at most once, and never creates a task or
    spawns a worker. *)
Theorem makeEspresso_completes_at_most_once (ctx : Context)
    (args : EspressoArgs float64) (taskId : string) (tr : list (Effect float64)) :
  let run := makeEspresso warmup mcpServer ctx args taskId tr in
  completeTaskCalls run.2 <= completeTaskCalls tr + 1
  /\ startCalls run.2 = startCalls tr.
Proof.
  cbv zeta. revert tr. change (completesAtMost (makeEspresso warmup mcpServer ctx args taskId) 1).
  unfold makeEspresso, failAndLog. bound_worker.
Qed.

End EspressoPaths.

Section EspressoPathsExamples.
Import context mcp espresso notions scenarios.

Lemma espressoHandler_spawns_worker_witness :
  espressoHandler decliningCustomer "ctx" syncRequest darkDouble []
  = (Returned (Some (dyn_CreateTaskResult brewTask), None),
     [CreateTask "ctx" [WithTaskTTL 3600000000000];
      Spawn "task-ctx" darkDouble "task-1"]).
Proof.
  apply (espressoHandler_spawns_worker decliningCustomer "ctx" syncRequest darkDouble []).
  discriminate.
Defined.

Lemma makeEspresso_cancelled_in_warm_up_witness :
  makeEspresso (fun _ => 30%Z) (customer (None, None) true None)
    "task-ctx" darkDouble "task-1" []
  = (Returned tt, [Sleep 30000000000; Select "task-ctx" 20000000000]).
Proof.
  apply (makeEspresso_cancelled_in_warm_up (fun _ => 30%Z) (customer (None, None) true None)
           "task-ctx" darkDouble "task-1" []).
  reflexivity.
Defined.

Lemma makeEspresso_named_recipient_witness :
  makeEspresso (fun _ => 30%Z) (customer (None, None) false None)
    "task-ctx" darkDoubleForBob "task-1" []
  = (Returned tt,
     [Sleep 30000000000; Select "task-ctx" 20000000000; Sleep 35000000010;
      CompleteTask "task-ctx" "task-1" (espressoPayload darkDoubleForBob "Bob")]).
Proof.
  apply (makeEspresso_named_recipient (fun _ => 30%Z) (customer (None, None) false None)
           "task-ctx" darkDoubleForBob "task-1" []).
  - discriminate.
  - reflexivity.
Defined.

Lemma makeEspresso_elicitation_cancelled_witness :
  makeEspresso (fun _ => 30%Z)
    (customer (Some (mkElicitationResult ElicitationResponseActionCancel any_nil), None)
       false None)
    "task-ctx" darkDouble "task-1" []
  = (Returned tt,
     [Sleep 30000000000; Select "task-ctx" 20000000000;
      RequestInput "task-ctx" "task-1" elicitCustomerName;
      CancelTask "task-ctx" "task-1"]).
Proof.
  apply (makeEspresso_elicitation_cancelled (fun _ => 30%Z)
           (customer (Some (mkElicitationResult ElicitationResponseActionCancel any_nil), None)
              false None)
           "task-ctx" darkDouble "task-1" [] any_nil); reflexivity.
Defined.

Lemma makeEspresso_input_error_witness :
  makeEspresso (fun _ => 30%Z) (customer (None, Some brokenGrinder) false None)
    "task-ctx" darkDouble "task-1" []
  = (Exited "error: something went wrong requesting input: grinder jammed",
     [Sleep 30000000000; Select "task-ctx" 20000000000;
      RequestInput "task-ctx" "task-1" elicitCustomerName;
      FailTask "task-ctx" "task-1" brokenGrinder;
      Printf "error: something went wrong requesting input: grinder jammed"]).
Proof.
  apply (makeEspresso_input_error (fun _ => 30%Z)
           (customer (None, Some brokenGrinder) false None)
           "task-ctx" darkDouble "task-1" [] None brokenGrinder); reflexivity.
Defined.

Lemma makeEspresso_named_by_customer_witness :
  makeEspresso (fun _ => 30%Z)
    (customer (Some (mkElicitationResult ElicitationResponseActionAccept namedAnn), None)
       false None)
    "task-ctx" darkDouble "task-1" []
  = (Returned tt,
     [Sleep 30000000000; Select "task-ctx" 20000000000;
      RequestInput "task-ctx" "task-1" elicitCustomerName; Sleep 35000000000;
      CompleteTask "task-ctx" "task-1" (espressoPayload darkDouble "Ann")]).
Proof.
  apply (makeEspresso_named_by_customer (fun _ => 30%Z)
           (customer (Some (mkElicitationResult ElicitationResponseActionAccept namedAnn), None)
              false None)
           "task-ctx" darkDouble "task-1" [] ElicitationResponseActionAccept
           {[ "customerName" := any_string "Ann" ]} "Ann");
    try reflexivity; discriminate.
Defined.


End EspressoPathsExamples.

Section DeclineExample.
Import context mcp espresso notions scenarios.

Lemma makeEspresso_decline_overwrites_witness :
  completedTexts
    (makeEspresso (fun _ => 30%Z)
       (customer (Some (mkElicitationResult ElicitationResponseActionDecline namedAnn), None)
          false None)
       "task-ctx" darkDouble "task-1" []).2
  = [[TextContent "2 shots of dark for Ann!"]].
Proof.
  apply (makeEspresso_decline_overwrites (fun _ => 30%Z)
           (customer (Some (mkElicitationResult ElicitationResponseActionDecline namedAnn), None)
              false None)
           "task-ctx" darkDouble "task-1" [] namedAnn); reflexivity.
Defined.

End DeclineExample.
